(** * AI Wiki Quiz Generator backend: the generation pipeline

    A shallow embedding of [models.py], [llm_quiz_generator.py],
    [scraper.py], [database.py], [cache_manager.py] and the
    [/generate_quiz] endpoint of [main.py], followed by the properties
    of the pipeline.

    Python values are modelled as follows.
    - [str] is [string]; [len], [strip], [lower], [replace], [find] act
      on its characters (the ASCII range is modelled exactly).
    - The result of [json.loads] is a [json] value; a Python [dict] with
      string keys is an association list in insertion order, read with
      [dict_get] and written with [dict_set].
    - An exception is a value of an error type returned in a sum.
    - What the program receives from outside (HTTP responses, the text
      the generative model returns, the JSON decoder, the HTML
      extraction, the clock) is passed in explicitly. *)

From Stdlib Require Import ZArith Ascii String List Bool Lia.
From stdpp Require Import base option list relations.
Import ListNotations.
Local Open Scope string_scope.
Local Open Scope Z_scope.

(** ** Python primitives *)

Set Warnings "-register-all,-abstract-large-number".

Module Py.

(** *** Strings *)

(** [c.isspace()] on the ASCII range: TAB, LF, VT, FF, CR, FS, GS, RS,
    US and SPACE. *)
Definition isspace (c : ascii) : bool :=
  let n := nat_of_ascii c in
  ((9 <=? n) && (n <=? 13) || (28 <=? n) && (n <=? 32))%nat.

Fixpoint lstrip_by (p : ascii -> bool) (s : string) : string :=
  match s with
  | EmptyString => EmptyString
  | String c r => if p c then lstrip_by p r else s
  end.

Fixpoint rev_onto (s acc : string) : string :=
  match s with
  | EmptyString => acc
  | String c r => rev_onto r (String c acc)
  end.

Definition rev (s : string) : string := rev_onto s EmptyString.

Definition rstrip_by (p : ascii -> bool) (s : string) : string :=
  rev (lstrip_by p (rev s)).

Definition strip_by (p : ascii -> bool) (s : string) : string :=
  rstrip_by p (lstrip_by p s).

(** [s.strip()], [s.lstrip()] and [s.strip(chars)] for one character. *)
Definition strip (s : string) : string := strip_by isspace s.
Definition lstrip (s : string) : string := lstrip_by isspace s.
Definition strip_char (c : ascii) (s : string) : string :=
  strip_by (Ascii.eqb c) s.

(** [s.startswith(p)] and [s.endswith(p)]. *)
Definition startswith (p s : string) : bool := String.prefix p s.
Definition endswith (p s : string) : bool := String.prefix (rev p) (rev s).

(** [s[n:]]. *)
Fixpoint drop (n : nat) (s : string) : string :=
  match n, s with
  | O, _ => s
  | S _, EmptyString => EmptyString
  | S m, String _ r => drop m r
  end.

(** [s[:n]]. *)
Fixpoint take (n : nat) (s : string) : string :=
  match n, s with
  | O, _ => EmptyString
  | S _, EmptyString => EmptyString
  | S m, String c r => String c (take m r)
  end.

(** [s.find(c)] for one character: the first index, or [None] for -1. *)
Fixpoint find_char (c : ascii) (s : string) : option nat :=
  match s with
  | EmptyString => None
  | String d r =>
      if Ascii.eqb c d then Some O
      else match find_char c r with
           | Some i => Some (S i)
           | None => None
           end
  end.

(** [s.rfind(c)] for one character: the last index, or [None] for -1. *)
Fixpoint rfind_char (c : ascii) (s : string) : option nat :=
  match s with
  | EmptyString => None
  | String d r =>
      match rfind_char c r with
      | Some i => Some (S i)
      | None => if Ascii.eqb c d then Some O else None
      end
  end.

(** [sub in s]. *)
Fixpoint contains (sub s : string) : bool :=
  String.prefix sub s ||
  match s with
  | EmptyString => false
  | String _ r => contains sub r
  end.

(** [s.split("/")[-1]]: what follows the last slash. *)
Fixpoint last_segment_from (s cur : string) : string :=
  match s with
  | EmptyString => rev cur
  | String c r =>
      if Ascii.eqb c "/" then last_segment_from r EmptyString
      else last_segment_from r (String c cur)
  end.

Definition last_segment (s : string) : string :=
  last_segment_from s EmptyString.

Definition lower_char (c : ascii) : ascii :=
  let n := nat_of_ascii c in
  if ((65 <=? n) && (n <=? 90))%nat then ascii_of_nat (n + 32) else c.

(** [s.lower()]. *)
Fixpoint lower (s : string) : string :=
  match s with
  | EmptyString => EmptyString
  | String c r => String (lower_char c) (lower r)
  end.

(** [s.replace(old, new)] for a non-empty [old]: every occurrence,
    left to right, without overlap.  [skip] counts the characters of
    an occurrence already replaced that are still to be passed. *)
Fixpoint replace_from (old new : string) (skip : nat) (s : string) : string :=
  match s with
  | EmptyString => EmptyString
  | String c r =>
      match skip with
      | S k => replace_from old new k r
      | O =>
          if String.prefix old s
          then new ++ replace_from old new (String.length old - 1) r
          else String c (replace_from old new O r)
      end
  end.

Definition replace (old new s : string) : string :=
  replace_from old new O s.

(** *** JSON values and dictionaries *)

(** What [json.loads] builds.  A number that is not an integer is kept
    by its literal, with a flag telling whether the float it denotes
    compares equal to zero (all that truth-testing needs). *)
Inductive json : Type :=
| JNull
| JBool (b : bool)
| JInt (n : Z)
| JFloat (is_zero : bool) (literal : string)
| JStr (s : string)
| JArr (items : list json)
| JObj (fields : list (string * json)).

Definition dict : Type := list (string * json).

(** [d.get(k)]. *)
Fixpoint dict_get (k : string) (d : dict) : option json :=
  match d with
  | [] => None
  | (k', v) :: r => if String.eqb k k' then Some v else dict_get k r
  end.

(** [d[k] = v]: an existing key keeps its place. *)
Fixpoint dict_set (k : string) (v : json) (d : dict) : dict :=
  match d with
  | [] => [(k, v)]
  | (k', v') :: r =>
      if String.eqb k k' then (k, v) :: r else (k', v') :: dict_set k v r
  end.

(** [del d[k]] for a dictionary that may or may not hold [k]. *)
Fixpoint dict_del (k : string) (d : dict) : dict :=
  match d with
  | [] => []
  | (k', v') :: r =>
      if String.eqb k k' then dict_del k r else (k', v') :: dict_del k r
  end.

(** [bool(v)]. *)
Definition truthy (v : json) : bool :=
  match v with
  | JNull => false
  | JBool b => b
  | JInt n => negb (n =? 0)
  | JFloat z _ => negb z
  | JStr s => negb (String.eqb s "")
  | JArr l => match l with [] => false | _ => true end
  | JObj d => match d with [] => false | _ => true end
  end.

End Py.

(** ** models.py *)

Module models.
Import Py.

(** [Difficulty = Literal["easy", "medium", "hard"]]. *)
Definition Difficulty : list string := ["easy"; "medium"; "hard"].

Record QuizItem : Type := mkQuizItem {
  question : string;
  options : list string;
  answer : string;
  difficulty : string;
  explanation : string
}.

Record KeyEntities : Type := mkKeyEntities {
  people : list string;
  organizations : list string;
  locations : list string
}.

Record QuizOutput : Type := mkQuizOutput {
  url : string;
  title : string;
  summary : string;
  key_entities : KeyEntities;
  sections : list string;
  quiz : list QuizItem;
  related_topics : list string
}.

(** Validation of the field types, as pydantic does it on the output of
    [json.loads]: [None] stands for a [ValidationError]. *)

(** A [str] field takes a JSON string and nothing else. *)
Definition validate_str (v : json) : option string :=
  match v with
  | JStr s => Some s
  | _ => None
  end.

(** A [List[T]] field takes a JSON array whose items all validate. *)
Definition validate_list {A : Type} (item : json -> option A) (v : json)
  : option (list A) :=
  match v with
  | JArr l => mapM item l
  | _ => None
  end.

(** [Field(min_length=lo, max_length=hi)] on a list. *)
Definition check_length {A : Type} (lo hi : nat) (l : list A) : option (list A) :=
  if ((lo <=? length l) && (length l <=? hi))%nat then Some l else None.

(** [Literal[...]]: the value is one of the listed strings, as it is. *)
Definition validate_literal (allowed : list string) (v : json) : option string :=
  match v with
  | JStr s => if existsb (String.eqb s) allowed then Some s else None
  | _ => None
  end.

(** A field without a default must be present. *)
Definition required {A : Type} (k : string) (validate : json -> option A)
  (d : dict) : option A :=
  match dict_get k d with
  | Some v => validate v
  | None => None
  end.

(** A field with a default takes the default when the key is absent; keys
    the model does not declare are ignored. *)
Definition with_default {A : Type} (k : string) (validate : json -> option A)
  (default : A) (d : dict) : option A :=
  match dict_get k d with
  | Some v => validate v
  | None => Some default
  end.

Definition QuizItem_validate (v : json) : option QuizItem :=
  match v with
  | JObj d =>
      q ← required "question" validate_str d;
      o ← required "options"
            (fun v => validate_list validate_str v ≫= check_length 4 4) d;
      a ← required "answer" validate_str d;
      f ← required "difficulty" (validate_literal Difficulty) d;
      e ← required "explanation" validate_str d;
      Some (mkQuizItem q o a f e)
  | _ => None
  end.

Definition KeyEntities_validate (v : json) : option KeyEntities :=
  match v with
  | JObj d =>
      p ← with_default "people" (validate_list validate_str) [] d;
      o ← with_default "organizations" (validate_list validate_str) [] d;
      l ← with_default "locations" (validate_list validate_str) [] d;
      Some (mkKeyEntities p o l)
  | _ => None
  end.

(** [QuizOutput.model_validate(data)] for a [data] that is a dict. *)
Definition QuizOutput_validate_dict (d : dict) : option QuizOutput :=
  u ← required "url" validate_str d;
  t ← required "title" validate_str d;
  s ← required "summary" validate_str d;
  k ← required "key_entities" KeyEntities_validate d;
  c ← required "sections" (validate_list validate_str) d;
  q ← required "quiz" (validate_list QuizItem_validate) d;
  r ← required "related_topics" (validate_list validate_str) d;
  Some (mkQuizOutput u t s k c q r).

(** [QuizOutput.model_validate(data)]. *)
Definition QuizOutput_model_validate (data : json) : option QuizOutput :=
  match data with
  | JObj d => QuizOutput_validate_dict d
  | _ => None
  end.

End models.

(** ** llm_quiz_generator.py *)

Module llm_quiz_generator.
Import Py models.

(** The double quote character, for the quoted parts of the prompt. *)
Definition dq : string := String (ascii_of_nat 34) EmptyString.

(** [PROMPT_TEMPLATE.format(url=url, title=title, article_text=article_text)]. *)
Definition PROMPT_TEMPLATE_format (url title article_text : string) : string :=
  "You are an expert educational content generator specializing in creating high-quality quizzes from Wikipedia articles.

Your task is to analyze the provided Wikipedia article and generate a comprehensive quiz package.

CRITICAL RULES:
1. Use ONLY facts explicitly stated in the article text - NO external knowledge or assumptions
2. Questions must be directly answerable from the article content
3. All four options must be plausible to avoid obvious answers
4. Explanations should reference specific sections or context from the article
5. Distribute difficulty levels: ~40% easy, ~40% medium, ~20% hard
6. Extract entities that are actually mentioned in the text
7. Return VALID JSON matching the schema EXACTLY (no markdown, no comments, no extra keys)

TASKS:
1. **Summary**: Write a 2-3 sentence concise summary capturing the main topic and key points
2. **Key Entities**: Extract entities that appear prominently in the article:
   - people: Named individuals mentioned
   - organizations: Companies, institutions, groups
   - locations: Cities, countries, regions
3. **Sections**: List 4-6 main section headings or topic areas covered
4. **Quiz**: Generate 5-10 multiple-choice questions:
   - Each question must have EXACTLY 4 options
   - One correct answer that matches one of the options exactly
   - Difficulty: easy (basic facts), medium (requires understanding), hard (detailed knowledge)
   - Explanation: Brief reason citing article section or context
5. **Related Topics**: Suggest 3-5 related Wikipedia topics for further reading

JSON SCHEMA (return ONLY this, nothing else):
{
  " ++ dq ++ "url" ++ dq ++ ": " ++ dq ++ url ++ dq ++ ",
  " ++ dq ++ "title" ++ dq ++ ": " ++ dq ++ title ++ dq ++ ",
  " ++ dq ++ "summary" ++ dq ++ ": " ++ dq ++ "string (2-3 sentences)" ++ dq ++ ",
  " ++ dq ++ "key_entities" ++ dq ++ ": {
    " ++ dq ++ "people" ++ dq ++ ": [" ++ dq ++ "string" ++ dq ++ "],
    " ++ dq ++ "organizations" ++ dq ++ ": [" ++ dq ++ "string" ++ dq ++ "],
    " ++ dq ++ "locations" ++ dq ++ ": [" ++ dq ++ "string" ++ dq ++ "]
  },
  " ++ dq ++ "sections" ++ dq ++ ": [" ++ dq ++ "string" ++ dq ++ "],
  " ++ dq ++ "quiz" ++ dq ++ ": [
    {
      " ++ dq ++ "question" ++ dq ++ ": " ++ dq ++ "string" ++ dq ++ ",
      " ++ dq ++ "options" ++ dq ++ ": [" ++ dq ++ "string" ++ dq ++ ", "
        ++ dq ++ "string" ++ dq ++ ", " ++ dq ++ "string" ++ dq ++ ", "
        ++ dq ++ "string" ++ dq ++ "],
      " ++ dq ++ "answer" ++ dq ++ ": " ++ dq ++ "string (must match one option exactly)" ++ dq ++ ",
      " ++ dq ++ "difficulty" ++ dq ++ ": " ++ dq ++ "easy" ++ dq ++ " | "
        ++ dq ++ "medium" ++ dq ++ " | " ++ dq ++ "hard" ++ dq ++ ",
      " ++ dq ++ "explanation" ++ dq ++ ": " ++ dq ++ "string (reference article section/context)" ++ dq ++ "
    }
  ],
  " ++ dq ++ "related_topics" ++ dq ++ ": [" ++ dq ++ "string" ++ dq ++ "]
}

ARTICLE DATA:
URL: " ++ url ++ "
TITLE: " ++ title ++ "

ARTICLE TEXT:
" ++ article_text ++ "

Generate the quiz now. Return ONLY valid JSON, no other text.
".

(** What [genai.list_models()] yields for one model. *)
Record ModelInfo : Type := mkModelInfo {
  name : string;
  supported_generation_methods : list string
}.

Definition str_in (s : string) (l : list string) : bool :=
  existsb (String.eqb s) l.

(** [_pick_model()], given the models of the API key and the value of
    the [GEMINI_MODEL] environment variable; [None] is the
    [RuntimeError] raised when no model supports [generateContent]. *)
Definition _pick_model (listed : list ModelInfo) (GEMINI_MODEL : option string)
  : option string :=
  let gen_models :=
    List.filter (fun m => str_in "generateContent"
                            (supported_generation_methods m)) listed in
  match gen_models with
  | [] => None
  | first :: _ =>
      let names := map name gen_models in
      let simple := map last_segment names in
      let preferences := ["gemini-1.5-flash"; "gemini-1.5-flash-8b"] in
      let by_rank :=
        match List.find (fun p => str_in p simple) preferences with
        | Some p => "models/" ++ p
        | None =>
            match List.find (contains "flash") simple with
            | Some s => "models/" ++ s
            | None => name first
            end
        end in
      Some
        match GEMINI_MODEL with
        | Some desired =>
            if String.eqb desired "" then by_rank
            else if str_in desired simple then "models/" ++ desired
            else if startswith "models/" desired
                    && str_in (last_segment desired) simple
                 then desired
                 else by_rank
        | None => by_rank
        end
  end.

(** [_clean_json_text(text)]. *)
Definition _clean_json_text (text : string) : string :=
  let text := strip text in
  if String.eqb text "" then text
  else
    let text :=
      if startswith "```" text then
        let text := strip_char "`" (strip text) in
        if startswith "json" text then lstrip (drop 4 text) else text
      else text in
    if negb (String.eqb text "")
       && negb (startswith "{" (strip text) && endswith "}" (strip text))
    then
      match find_char "{" text, rfind_char "}" text with
      | Some start, Some end_ =>
          if (start <? end_)%nat
          then take (end_ + 1 - start) (drop start text)
          else text
      | _, _ => text
      end
    else text.

(** What one call of the generative backend gives: a response whose
    [text] is read ([None] and a missing attribute read as the empty
    string), or an exception of the named type, raised by the call or by
    reading [text]. *)
Inductive Reply : Type :=
| Reply_text (text : string)
| Reply_raises (type_name : string).

(** The second component of a failed attempt: the literal
    [Empty model response], or the type name of the exception caught
    (its message is left out). *)
Inductive Failure : Type :=
| Empty_model_response
| Raised (type_name : string).

(** [q["difficulty"] = q["difficulty"].lower()] for one item of the quiz
    list; [None] is the [AttributeError] of an item with no [get]. *)
Definition lower_difficulty (q : json) : option json :=
  match q with
  | JObj f =>
      match dict_get "difficulty" f with
      | Some (JStr s) => Some (JObj (dict_set "difficulty" (JStr (lower s)) f))
      | _ => Some q
      end
  | _ => None
  end.

(** The loop [for q in data.get("quiz", []): ...] over a dict [data],
    which changes the items in place; [inr] carries the type name of
    the exception raised: iterating over a string or a dict yields
    strings, which have no [get], and the other values cannot be
    iterated over. *)
Definition lower_difficulties (d : dict) : dict + string :=
  match dict_get "quiz" d with
  | None => inl d
  | Some (JArr items) =>
      match mapM lower_difficulty items with
      | Some items' => inl (dict_set "quiz" (JArr items') d)
      | None => inr "AttributeError"
      end
  | Some (JStr EmptyString) => inl d
  | Some (JObj []) => inl d
  | Some (JStr _) => inr "AttributeError"
  | Some (JObj _) => inr "AttributeError"
  | Some _ => inr "TypeError"
  end.

Section Backend.

(** [json.loads]: [None] is a [JSONDecodeError]. *)
Variable json_loads : string -> option json.

(** [genai.GenerativeModel(model_name).generate_content(prompt)]. *)
Variable generate_content : string -> string -> Reply.

(** [_try_once(model_name, prompt)]: [inl data] is [(True, data)] and
    [inr e] is [(False, e)]. *)
Definition _try_once (model_name prompt : string) : dict + Failure :=
  match generate_content model_name prompt with
  | Reply_raises e => inr (Raised e)
  | Reply_text raw =>
      let text := _clean_json_text raw in
      if String.eqb text "" then inr Empty_model_response
      else
        match json_loads text with
        | None => inr (Raised "JSONDecodeError")
        | Some (JObj data) =>
            match QuizOutput_validate_dict data with
            | None => inr (Raised "ValidationError")
            | Some _ =>
                match lower_difficulties data with
                | inr e => inr (Raised e)
                | inl data' =>
                    match QuizOutput_validate_dict data' with
                    | None => inr (Raised "ValidationError")
                    | Some _ => inl data'
                    end
                end
            end
        | Some _ => inr (Raised "ValidationError")
        end
  end.

(** [article_text[:18000]]. *)
Definition truncate (article_text : string) : string :=
  take 18000 article_text.

Definition REMINDER : string :=
  "

REMINDER: Return ONLY pure JSON that exactly matches the schema. No markdown.".

(** [result["url"] = url; result["title"] = result.get("title") or title]. *)
Definition stamp (url title : string) (result : dict) : dict :=
  let result := dict_set "url" (JStr url) result in
  let t :=
    match dict_get "title" result with
    | Some v => if truthy v then v else JStr title
    | None => JStr title
    end in
  dict_set "title" t result.

(** The exceptions [generate_quiz] raises. *)
Inductive RuntimeError : Type :=
| No_models_available
| Model_failed (model_name : string) (last_error : Failure).

(** [generate_quiz(url, title, article_text)]. *)
Definition generate_quiz (listed : list ModelInfo) (GEMINI_MODEL : option string)
  (url title article_text : string) : dict + RuntimeError :=
  let article_text := truncate article_text in
  let prompt := PROMPT_TEMPLATE_format url title article_text in
  match _pick_model listed GEMINI_MODEL with
  | None => inr No_models_available
  | Some model_name =>
      match _try_once model_name prompt with
      | inl result => inl (stamp url title result)
      | inr result =>
          let nudge_prompt := prompt ++ REMINDER in
          match _try_once model_name nudge_prompt with
          | inl result2 => inl (stamp url title result2)
          | inr result2 =>
              (* [result2 if not ok2 else result], where [ok2] is false *)
              inr (Model_failed model_name
                     (if negb false then result2 else result))
          end
      end
  end.

End Backend.

End llm_quiz_generator.

(** ** scraper.py *)

Module scraper.
Import Py.

Definition Headers : Type := list (string * string).

Fixpoint headers_set (k v : string) (h : Headers) : Headers :=
  match h with
  | [] => [(k, v)]
  | (k', v') :: r =>
      if String.eqb k k' then (k, v) :: r else (k', v') :: headers_set k v r
  end.

Definition DESKTOP_HEADERS : Headers :=
  [ ("User-Agent",
     "Mozilla/5.0 (Macintosh; Intel Mac OS X 10_15_7) "
     ++ "AppleWebKit/537.36 (KHTML, like Gecko) "
     ++ "Chrome/124.0.0.0 Safari/537.36");
    ("Accept", "text/html,application/xhtml+xml,application/xml;q=0.9,*/*;q=0.8");
    ("Accept-Language", "en-US,en;q=0.9") ].

Definition MOBILE_HEADERS : Headers :=
  headers_set "User-Agent"
    ("Mozilla/5.0 (iPhone; CPU iPhone OS 16_0 like Mac OS X) "
     ++ "AppleWebKit/605.1.15 (KHTML, like Gecko) Version/16.0 "
     ++ "Mobile/15E148 Safari/604.1")
    DESKTOP_HEADERS.

(** The exceptions of [requests]: an [HTTPError] with the status code of
    the response attached to it (if any), or another request exception
    (connection error, timeout, too many redirects). *)
Inductive RequestsError : Type :=
| HTTPError (response_status_code : option Z)
| RequestException (type_name : string).

(** What [requests.get(url, headers=..., timeout=20, allow_redirects=True)]
    gives: a response, or an exception. *)
Inductive GetResult : Type :=
| Response (status_code : Z) (text : string)
| GetRaises (e : RequestsError).

(** One request that was sent: the URL and the headers. *)
Definition Request : Type := (string * Headers)%type.

Section Web.

Variable requests_get : string -> Headers -> GetResult.

(** [BeautifulSoup]-based [_extract(html)]: title and text. *)
Variable _extract : string -> string * string.

(** [resp.raise_for_status()] raises for the statuses 400 to 599. *)
Definition raise_for_status (status_code : Z) : bool :=
  (400 <=? status_code) && (status_code <? 600).

(** [_fetch(url, headers)]. *)
Definition _fetch (url : string) (headers : Headers) : string + RequestsError :=
  match requests_get url headers with
  | GetRaises e => inr e
  | Response status_code text =>
      if raise_for_status status_code
      then inr (HTTPError (Some status_code))
      else inl text
  end.

Definition mobile_url (url : string) : string :=
  replace "https://en.wikipedia.org" "https://m.wikipedia.org" url.

(** [scrape_wikipedia(url)], together with the requests it sent, in
    order. *)
Definition scrape_wikipedia (url : string)
  : list Request * ((string * string * string) + RequestsError) :=
  let finish html :=
    let '(title, text) := _extract html in inl (title, text, html) in
  match _fetch url DESKTOP_HEADERS with
  | inl html => ([(url, DESKTOP_HEADERS)], finish html)
  | inr (HTTPError response) =>
      let status := match response with Some c => c | None => 0 end in
      if (status =? 403) || (status =? 429) then
        ([(url, DESKTOP_HEADERS); (mobile_url url, MOBILE_HEADERS)],
         match _fetch (mobile_url url) MOBILE_HEADERS with
         | inl html => finish html
         | inr e => inr e
         end)
      else ([(url, DESKTOP_HEADERS)], inr (HTTPError response))
  | inr e => ([(url, DESKTOP_HEADERS)], inr e)
  end.

End Web.

End scraper.

(** ** database.py *)

Module database.
Import Py.

(** A row of the table [quizzes].  [full_quiz_data] is the document the
    text column holds: [json.dumps] on the way in and [json.loads] on
    the way out cancel each other.  [date_generated] is kept in its
    [isoformat()] rendering. *)
Record Quiz : Type := mkQuiz {
  id : Z;
  url : string;
  title : json;
  date_generated : string;
  scraped_content : option string;
  raw_html : option string;
  full_quiz_data : dict
}.

(** The table, and the next value of its autoincrement key. *)
Record Session : Type := mkSession {
  rows : list Quiz;
  next_id : Z
}.

(** [db.query(Quiz).filter(Quiz.url == url).first()]. *)
Definition first_by_url (db : Session) (u : string) : option Quiz :=
  List.find (fun r => String.eqb (url r) u) (rows db).

(** [db.add(record); db.commit(); db.refresh(record)] for a record built
    without [id] and [date_generated]: the column [url] is [unique], so
    a row with the same [url] makes the commit raise [IntegrityError]
    ([None]) and leaves the table as it was; otherwise the row is
    stored with a fresh [id] and the default [date_generated]. *)
Definition add_commit (utcnow : string) (db : Session)
  (record_url : string) (record_title : json)
  (record_scraped_content record_raw_html : option string)
  (record_full_quiz_data : dict) : Session * option Quiz :=
  match first_by_url db record_url with
  | Some _ => (db, None)
  | None =>
      let record :=
        mkQuiz (next_id db) record_url record_title utcnow
               record_scraped_content record_raw_html record_full_quiz_data in
      (mkSession (rows db ++ [record]) (next_id db + 1), Some record)
  end.

End database.

(** ** cache_manager.py *)

Module cache_manager.
Import Py database.

(** The dict [check_cache] builds from a row. *)
Definition cached_view (quiz : Quiz) : dict :=
  let data := full_quiz_data quiz in
  let data := dict_set "id" (JInt (id quiz)) data in
  let data := dict_set "cached" (JBool true) data in
  dict_set "date_generated" (JStr (date_generated quiz)) data.

(** [check_cache(db, url)]. *)
Definition check_cache (db : Session) (url : string) : option dict :=
  let url := strip url in
  match first_by_url db url with
  | Some quiz => Some (cached_view quiz)
  | None => None
  end.

End cache_manager.

(** ** main.py: the endpoint [/generate_quiz] *)

Module main.
Import Py.

(** The [detail] of an [HTTPException]: one of the literal messages, or
    [LLM generation failed: ...] with the exception it reports. *)
Inductive Detail : Type :=
| Literal (message : string)
| LLM_generation_failed (e : llm_quiz_generator.RuntimeError).

(** How a call of the endpoint ends: the returned dict, an
    [HTTPException], or an exception of the scraper that the endpoint
    lets through. *)
Inductive Outcome : Type :=
| Returns (body : dict)
| HTTPException (status_code : Z) (detail : Detail)
| Propagates (e : scraper.RequestsError).

(** Everything outside the process that one call depends on. *)
Record World : Type := mkWorld {
  requests_get : string -> scraper.Headers -> scraper.GetResult;
  _extract : string -> string * string;
  list_models : list llm_quiz_generator.ModelInfo;
  GEMINI_MODEL : option string;
  generate_content : string -> string -> llm_quiz_generator.Reply;
  json_loads : string -> option json;
  utcnow : string
}.

(** Where a call of the endpoint stands.  The table is read or written
    at the step that leaves [Start], [Store] and [Conflict]; the step
    that leaves [Missed] does not touch it. *)
Inductive Stage : Type :=
| Start (body_url : string)
| Missed (url : string)
| Store (url title text raw_html : string) (result : dict)
| Conflict (url : string)
| Finished (o : Outcome).

Definition valid_scheme (url : string) : bool :=
  startswith "http://" url || startswith "https://" url.

(** From the entry to the first [check_cache]. *)
Definition lookup_phase (db : database.Session) (body_url : string) : Stage :=
  let url := strip body_url in
  if negb (valid_scheme url)
  then Finished (HTTPException 400 (Literal "Invalid URL"))
  else
    match cache_manager.check_cache db url with
    | Some cached =>
        if truthy (JObj cached) then Finished (Returns cached) else Missed url
    | None => Missed url
    end.

(** From [scrape_wikipedia] to the result of [generate_quiz]. *)
Definition generate_phase (w : World) (url : string) : Stage :=
  match snd (scraper.scrape_wikipedia (requests_get w) (_extract w) url) with
  | inr (scraper.HTTPError response) =>
      let code := match response with Some c => c | None => 500 end in
      if (code =? 403) || (code =? 429)
      then Finished (HTTPException 422 (Literal
             "Wikipedia blocked the request (403/429). Please retry in a minute or try another page."))
      else Finished (Propagates (scraper.HTTPError response))
  | inr e => Finished (Propagates e)
  | inl (title, text, raw_html) =>
      if String.eqb text "" || (String.length text <? 200)%nat
      then Finished (HTTPException 422 (Literal
             "Could not extract sufficient article text"))
      else
        match llm_quiz_generator.generate_quiz
                (json_loads w) (generate_content w)
                (list_models w) (GEMINI_MODEL w) url title text with
        | inr e => Finished (HTTPException 500 (LLM_generation_failed e))
        | inl result => Store url title text raw_html result
        end
  end.

(** [result.get("title", title)]. *)
Definition record_title (result : dict) (title : string) : json :=
  match dict_get "title" result with
  | Some v => v
  | None => JStr title
  end.

(** [result_with_id]: a copy of [result] with [id] and [cached]. *)
Definition fresh_view (record : database.Quiz) : dict :=
  let result_with_id := database.full_quiz_data record in
  let result_with_id := dict_set "id" (JInt (database.id record)) result_with_id in
  dict_set "cached" (JBool false) result_with_id.

(** The insert: on success the call returns, on [IntegrityError] it
    rolls back and goes on to look the row up. *)
Definition store_phase (w : World) (db : database.Session)
  (url title text raw_html : string) (result : dict)
  : database.Session * Stage :=
  match database.add_commit (utcnow w) db url (record_title result title)
          (Some text) (Some raw_html) result with
  | (db', Some record) => (db', Finished (Returns (fresh_view record)))
  | (db', None) => (db', Conflict url)
  end.

(** The handler of [IntegrityError], after the rollback. *)
Definition recover_phase (db : database.Session) (url : string) : Stage :=
  match cache_manager.check_cache db url with
  | Some cached =>
      if truthy (JObj cached) then Finished (Returns cached)
      else Finished (HTTPException 500 (Literal "Database error"))
  | None => Finished (HTTPException 500 (Literal "Database error"))
  end.

(** One step of a call. *)
Definition step (w : World) (db : database.Session) (s : Stage)
  : database.Session * Stage :=
  match s with
  | Start body_url => (db, lookup_phase db body_url)
  | Missed url => (db, generate_phase w url)
  | Store url title text raw_html result =>
      store_phase w db url title text raw_html result
  | Conflict url => (db, recover_phase db url)
  | Finished o => (db, Finished o)
  end.

(** [generate_quiz_endpoint(body)] run on its own: the four steps, one
    after the other, with nothing else touching the table. *)
Definition generate_quiz_endpoint (w : World) (db : database.Session)
  (body_url : string) : database.Session * Stage :=
  Nat.iter 4 (fun p => step w (fst p) (snd p)) (db, Start body_url).

(** *** Concurrent calls *)

(** The table and the calls in flight. *)
Record System : Type := mkSystem {
  store : database.Session;
  calls : list Stage
}.

(** One call takes one step, in whatever world it finds. *)
Inductive sys_step : System -> System -> Prop :=
| sys_step_call (sys : System) (i : nat) (w : World) (s s' : Stage)
    (db' : database.Session) :
    calls sys !! i = Some s ->
    step w (store sys) s = (db', s') ->
    sys_step sys (mkSystem db' (<[i := s']> (calls sys))).

(** The states that concurrent calls with the given bodies can reach
    from the table [db]. *)
Definition reachable (db : database.Session) (bodies : list string)
  (sys : System) : Prop :=
  rtc sys_step (mkSystem db (map Start bodies)) sys.

(** The call [i] takes one step in the world [w]. *)
Definition sys_run (w : World) (sys : System) (i : nat) : System :=
  match calls sys !! i with
  | Some s =>
      let '(db', s') := step w (store sys) s in
      mkSystem db' (<[i := s']> (calls sys))
  | None => sys
  end.

(** The calls take steps in the order given. *)
Definition schedule (w : World) (sys : System) (order : list nat) : System :=
  fold_left (sys_run w) order sys.

End main.

(** ** Sample documents *)

Module samples.
Import Py.

Definition item (difficulty answer : string) : json :=
  JObj [ ("question", JStr "Which city is the capital of France?");
         ("options", JArr [JStr "Paris"; JStr "Lyon"; JStr "Nice"; JStr "Lille"]);
         ("answer", JStr answer);
         ("difficulty", JStr difficulty);
         ("explanation", JStr "Stated in the lead section.") ].

Definition document (title : string) (key_entities : dict) (quiz : list json)
  : dict :=
  [ ("url", JStr "https://en.wikipedia.org/wiki/France");
    ("title", JStr title);
    ("summary", JStr "France is a country in Western Europe.");
    ("key_entities", JObj key_entities);
    ("sections", JArr [JStr "History"]);
    ("quiz", JArr quiz);
    ("related_topics", JArr [JStr "Europe"]) ].

Definition entities : dict :=
  [ ("people", JArr [JStr "Charles de Gaulle"]);
    ("organizations", JArr [JStr "European Union"]);
    ("locations", JArr [JStr "Paris"]) ].

(** A decoder that reads the text [{}] as the document [doc] and
    rejects every other text. *)
Definition decoder (doc : dict) (text : string) : option json :=
  if String.eqb text "{}" then Some (JObj doc) else None.

(** A backend that replies with prose to the first prompt and with the
    text [{}] to the nudged one. *)
Definition backend (model_name prompt : string) : llm_quiz_generator.Reply :=
  if endswith "No markdown." prompt
  then llm_quiz_generator.Reply_text "{}"
  else llm_quiz_generator.Reply_text "Here is your quiz".

Definition listed : list llm_quiz_generator.ModelInfo :=
  [ llm_quiz_generator.mkModelInfo "models/gemini-1.5-flash"
      ["generateContent"] ].

(** A site that answers 403 to the desktop headers and [mobile_status]
    to the mobile ones. *)
Definition site (mobile_status : Z) (url : string) (headers : scraper.Headers)
  : scraper.GetResult :=
  match headers with
  | (_, user_agent) :: _ =>
      if contains "iPhone" user_agent
      then scraper.Response mobile_status "<h1>France</h1><p>mobile</p>"
      else scraper.Response 403 "Forbidden"
  | [] => scraper.Response 403 "Forbidden"
  end.

(** An extraction that takes the whole markup as the text. *)
Definition extract (html : string) : string * string := ("Untitled", html).

(** A text of [n] characters. *)
Definition filler (n : nat) : string :=
  string_of_list_ascii (repeat "a"%char n).

(** A world in which every page is served at once with [text] as its
    markup, and the backend behaves as [backend] with [decoder doc]. *)
Definition world (text : string) (doc : dict) : main.World :=
  main.mkWorld (fun _ _ => scraper.Response 200 text) extract listed None
    backend (decoder doc) "2024-05-01T12:00:00".

Definition empty_table : database.Session := database.mkSession [] 1.

(** Two calls for the same article race: both miss the cache, both
    fetch and synthesize, the first inserts, and the insert of the
    second hits the unique constraint. *)
Definition race_conflict : main.System :=
  main.schedule
    (world (filler 200) (document "France" entities [item "easy" "Paris"]))
    (main.mkSystem empty_table
       (map main.Start [" https://en.wikipedia.org/wiki/France";
                        "https://en.wikipedia.org/wiki/France "]))
    [0; 1; 0; 1; 0; 1]%nat.

(** The second call then looks the row up. *)
Definition race_final : main.System :=
  main.sys_run
    (world (filler 200) (document "France" entities [item "easy" "Paris"]))
    race_conflict 1%nat.

End samples.

(** ** The rewrite of the URL, in the words of the specification *)

Module spec.
Import Py.


End spec.

(** ** Notions used in the statements *)

Module notions.
Import Py.

(** The shape the validator imposes on one quiz item. *)
Definition item_shape (q : models.QuizItem) : Prop :=
  length (models.options q) = 4%nat /\
  In (models.difficulty q) ["easy"; "medium"; "hard"].

(** A quiz item with another answer. *)
Definition with_answer (a : string) (q : models.QuizItem) : models.QuizItem :=
  models.mkQuizItem (models.question q) (models.options q) a
    (models.difficulty q) (models.explanation q).

(** A dict with the keys [fields] left out. *)
Definition omit (fields : list string) (o : dict) : dict :=
  fold_right dict_del o fields.

Definition unless_omitted (fields : list string) (k : string)
  (l : list string) : list string :=
  if existsb (String.eqb k) fields then [] else l.

(** The entity lists, those of the keys [fields] being empty. *)
Definition defaulted (fields : list string) (ke : models.KeyEntities)
  : models.KeyEntities :=
  models.mkKeyEntities
    (unless_omitted fields "people" (models.people ke))
    (unless_omitted fields "organizations" (models.organizations ke))
    (unless_omitted fields "locations" (models.locations ke)).

Definition with_key_entities (ke : models.KeyEntities) (q : models.QuizOutput)
  : models.QuizOutput :=
  models.mkQuizOutput (models.url q) (models.title q) (models.summary q) ke
    (models.sections q) (models.quiz q) (models.related_topics q).

(** A reply is valid, with document [d], when it carries text, the
    cleaned text is not empty and decodes to the dict [d], and [d]
    passes the schema. *)
Definition valid_reply (json_loads : string -> option json)
  (r : llm_quiz_generator.Reply) (d : dict) : Prop :=
  exists raw, r = llm_quiz_generator.Reply_text raw /\
    llm_quiz_generator._clean_json_text raw <> "" /\
    json_loads (llm_quiz_generator._clean_json_text raw) = Some (JObj d) /\
    is_Some (models.QuizOutput_validate_dict d).

(** A reply is invalid when it is valid with no document: it raises,
    it is empty, it does not decode, or what it decodes to violates the
    schema. *)
Definition invalid_reply (json_loads : string -> option json)
  (r : llm_quiz_generator.Reply) : Prop :=
  forall d, ~ valid_reply json_loads r d.

(** A string that does not start with a character to strip. *)
Definition headed (p : ascii -> bool) (t : string) : Prop :=
  match t with
  | EmptyString => True
  | String c _ => p c = false
  end.

(** How many steps a call at a stage has left at most. *)
Definition rank (s : main.Stage) : nat :=
  match s with
  | main.Start _ => 4
  | main.Missed _ => 3
  | main.Store _ _ _ _ _ => 2
  | main.Conflict _ => 1
  | main.Finished _ => 0
  end.

(** The rejection of a text that is too short. *)
Definition insufficient : main.Outcome :=
  main.HTTPException 422
    (main.Literal "Could not extract sufficient article text").


(** The dict a call returns is one of the two views of the row. *)
Definition serves (row : database.Quiz) (payload : dict) : Prop :=
  payload = main.fresh_view row \/ payload = cache_manager.cached_view row.

(** What holds of a call with body [body] at each stage. *)
Definition stage_ok (db : database.Session) (body : string) (s : main.Stage)
  : Prop :=
  match s with
  | main.Start b => b = body
  | main.Missed u => u = strip body
  | main.Store u _ _ _ _ => u = strip body
  | main.Conflict u =>
      u = strip body /\
      exists row, row ∈ database.rows db /\ database.url row = u
  | main.Finished (main.Returns payload) =>
      exists row, row ∈ database.rows db /\
                  database.url row = strip body /\
                  serves row payload
  | main.Finished (main.HTTPException _ detail) =>
      detail <> main.Literal "Database error"
  | main.Finished (main.Propagates _) => True
  end.

(** The invariant of the table and the calls in flight. *)
Definition sys_inv (bodies : list string) (sys : main.System) : Prop :=
  NoDup (database.url <$> database.rows (main.store sys)) /\
  Forall2 (stage_ok (main.store sys)) bodies (main.calls sys).

End notions.

(** ** main.py: the endpoints [/preview] and [/quiz/{id}] *)

Module routes.
Import Py.

(** The [detail] of an [HTTPException] of [/preview]: one of the literal
    messages, or [Error: ...] with the exception it reports. *)
Inductive PreviewDetail : Type :=
| Preview_literal (message : string)
| Preview_error (e : scraper.RequestsError).

(** How a call of [/preview] ends: the returned dict or an
    [HTTPException]. *)
Inductive PreviewOutcome : Type :=
| Preview_returns (body : dict)
| Preview_HTTPException (status_code : Z) (detail : PreviewDetail).

(** [preview_url(body)]. *)
Definition preview_url
  (requests_get : string -> scraper.Headers -> scraper.GetResult)
  (_extract : string -> string * string) (body_url : string)
  : PreviewOutcome :=
  let url := strip body_url in
  if negb (main.valid_scheme url)
  then Preview_HTTPException 400 (Preview_literal "Invalid URL")
  else if negb (contains "wikipedia.org/wiki/" url)
  then Preview_HTTPException 400
         (Preview_literal "URL must be a Wikipedia article")
  else
    match snd (scraper.scrape_wikipedia requests_get _extract url) with
    | inl (title, _, _) =>
        Preview_returns
          [("url", JStr url); ("title", JStr title); ("valid", JBool true)]
    | inr (scraper.HTTPError response) =>
        let code := match response with Some c => c | None => 500 end in
        if (code =? 403) || (code =? 429)
        then Preview_HTTPException 422 (Preview_literal
               "Wikipedia blocked the request. Please retry in a minute.")
        else Preview_HTTPException 422
               (Preview_literal "Failed to fetch article")
    | inr e => Preview_HTTPException 422 (Preview_error e)
    end.

(** [db.get(Quiz, quiz_id)]. *)
Definition get_by_id (db : database.Session) (quiz_id : Z)
  : option database.Quiz :=
  List.find (fun r => database.id r =? quiz_id) (database.rows db).

(** The dict [get_quiz] builds from a row. *)
Definition detail_view (r : database.Quiz) : dict :=
  let data := database.full_quiz_data r in
  let data := dict_set "id" (JInt (database.id r)) data in
  dict_set "date_generated" (JStr (database.date_generated r)) data.

(** [get_quiz(quiz_id)]. *)
Definition get_quiz (db : database.Session) (quiz_id : Z) : main.Outcome :=
  match get_by_id db quiz_id with
  | None => main.HTTPException 404 (main.Literal "Quiz not found")
  | Some r => main.Returns (detail_view r)
  end.

End routes.

(** ** Further notions used in the statements *)

Module notions_more.
Import Py notions.

(** The fields the models declare. *)
Definition QuizOutput_fields : list string :=
  ["url"; "title"; "summary"; "key_entities"; "sections"; "quiz";
   "related_topics"].

Definition QuizItem_fields : list string :=
  ["question"; "options"; "answer"; "difficulty"; "explanation"].

Definition KeyEntities_fields : list string :=
  ["people"; "organizations"; "locations"].

(** The short names of the listed models that support
    [generateContent]. *)
Definition capable_short_names (listed : list llm_quiz_generator.ModelInfo)
  : list string :=
  map (fun m => last_segment (llm_quiz_generator.name m))
    (List.filter
       (fun m => llm_quiz_generator.str_in "generateContent"
                   (llm_quiz_generator.supported_generation_methods m))
       listed).

(** The keys of the table are in order: every [id] is below the next
    one to be given, and no [id] occurs twice. *)
Definition ids_fresh (db : database.Session) : Prop :=
  Forall (fun r => database.id r < database.next_id db) (database.rows db) /\
  NoDup (database.id <$> database.rows db).

(** A row as the endpoint writes it: its document passes the schema and
    carries the url of the row, the title column is the title of the
    document, and the extracted text and the markup are kept, the text
    having at least 200 characters. *)
Definition row_complete (row : database.Quiz) : Prop :=
  exists q text,
    models.QuizOutput_validate_dict (database.full_quiz_data row) = Some q /\
    models.url q = database.url row /\
    database.title row = JStr (models.title q) /\
    database.scraped_content row = Some text /\
    (200 <= String.length text)%nat /\
    is_Some (database.raw_html row).

(** A call about to insert holds a document that passes the schema and
    carries its url, and a text of at least 200 characters. *)
Definition stage_complete (s : main.Stage) : Prop :=
  match s with
  | main.Store u _ text _ result =>
      exists q, models.QuizOutput_validate_dict result = Some q /\
                models.url q = u /\ (200 <= String.length text)%nat
  | _ => True
  end.

(** The rejection of a fetch that stayed blocked. *)
Definition blocked : main.Outcome :=
  main.HTTPException 422
    (main.Literal
       "Wikipedia blocked the request (403/429). Please retry in a minute or try another page.").

(** The row the endpoint stores for a result, and the table with it. *)
Definition stored_row (w : main.World) (db : database.Session)
  (u t x h : string) (r : dict) : database.Quiz :=
  database.mkQuiz (database.next_id db) u (main.record_title r t)
    (main.utcnow w) (Some x) (Some h) r.

Definition table_with (db : database.Session) (row : database.Quiz)
  : database.Session :=
  database.mkSession (database.rows db ++ [row]) (database.next_id db + 1).

End notions_more.

(** * Properties *)

Import Py notions.

(** ** The string operations on examples *)

Example strip_example : strip "  https://en.wikipedia.org/wiki/France
 " = "https://en.wikipedia.org/wiki/France".
Proof. reflexivity. Qed.

Example lower_example : lower "Medium" = "medium".
Proof. reflexivity. Qed.

Example replace_example : replace "aa" "b" "aaa-aa" = "ba-b".
Proof. reflexivity. Qed.

Example last_segment_example :
  last_segment "models/gemini-1.5-flash" = "gemini-1.5-flash".
Proof. reflexivity. Qed.

Example clean_fenced_example :
  llm_quiz_generator._clean_json_text "```json
{1}
```" = "{1}
".
Proof. reflexivity. Qed.

Example clean_prose_example :
  llm_quiz_generator._clean_json_text "Here it is: {1} Enjoy." = "{1}".
Proof. reflexivity. Qed.

Example pick_model_example :
  llm_quiz_generator._pick_model
    [ llm_quiz_generator.mkModelInfo "models/embedding-001" ["embedContent"];
      llm_quiz_generator.mkModelInfo "models/gemini-pro" ["generateContent"];
      llm_quiz_generator.mkModelInfo "models/gemini-2.0-flash"
        ["generateContent"] ]
    None
  = Some "models/gemini-2.0-flash".
Proof. reflexivity. Qed.

(** ** Dictionaries *)

Lemma dict_get_set_eq (k : string) (v : json) (d : dict) :
  dict_get k (dict_set k v d) = Some v.
Proof.
  induction d as [|[k' v'] r IH]; simpl.
  - by rewrite String.eqb_refl.
  - destruct (String.eqb k k') eqn:E; simpl; rewrite ?String.eqb_refl, ?E; done.
Qed.

Lemma dict_get_set_ne (k k' : string) (v : json) (d : dict) :
  k <> k' -> dict_get k' (dict_set k v d) = dict_get k' d.
Proof.
  intros Hne. induction d as [|[k0 v0] r IH]; simpl.
  - destruct (String.eqb k' k) eqn:E; [|done].
    apply String.eqb_eq in E. congruence.
  - destruct (String.eqb k k0) eqn:E; simpl.
    + apply String.eqb_eq in E. subst k0.
      destruct (String.eqb k' k) eqn:E'; [|done].
      apply String.eqb_eq in E'. congruence.
    + by rewrite IH.
Qed.

Lemma dict_get_del_eq (k : string) (d : dict) :
  dict_get k (dict_del k d) = None.
Proof.
  induction d as [|[k' v'] r IH]; simpl; [done|].
  destruct (String.eqb k k') eqn:E; simpl; rewrite ?E; done.
Qed.

Lemma dict_get_del_ne (k k' : string) (d : dict) :
  k <> k' -> dict_get k' (dict_del k d) = dict_get k' d.
Proof.
  intros Hne. induction d as [|[k0 v0] r IH]; simpl; [done|].
  destruct (String.eqb k k0) eqn:E; simpl.
  - apply String.eqb_eq in E. subst k0.
    destruct (String.eqb k' k) eqn:E'; [|done].
    apply String.eqb_eq in E'. congruence.
  - by rewrite IH.
Qed.

Lemma dict_set_nonempty (k : string) (v : json) (d : dict) :
  truthy (JObj (dict_set k v d)) = true.
Proof. destruct d as [|[k' v'] r]; simpl; [done|]. by destruct (String.eqb k k'). Qed.

(** ** The schema *)

Import models.

Lemma required_set_eq {A : Type} (k : string) (f : json -> option A)
  (v : json) (d : dict) :
  required k f (dict_set k v d) = f v.
Proof. unfold required. by rewrite dict_get_set_eq. Qed.

Lemma required_set_ne {A : Type} (k k' : string) (f : json -> option A)
  (v : json) (d : dict) :
  k <> k' -> required k' f (dict_set k v d) = required k' f d.
Proof. intros. unfold required. by rewrite dict_get_set_ne. Qed.

Lemma required_Some {A : Type} (k : string) (f : json -> option A)
  (d : dict) (a : A) :
  required k f d = Some a <-> exists v, dict_get k d = Some v /\ f v = Some a.
Proof.
  unfold required. split.
  - destruct (dict_get k d) as [v|]; [eauto|done].
  - by intros (v & -> & ?).
Qed.

(** Validation of a dict succeeds exactly when each declared field
    validates, and the model holds the validated fields. *)
Lemma QuizOutput_validate_dict_Some (d : dict) (q : QuizOutput) :
  QuizOutput_validate_dict d = Some q <->
  required "url" validate_str d = Some (url q) /\
  required "title" validate_str d = Some (title q) /\
  required "summary" validate_str d = Some (summary q) /\
  required "key_entities" KeyEntities_validate d = Some (key_entities q) /\
  required "sections" (validate_list validate_str) d = Some (sections q) /\
  required "quiz" (validate_list QuizItem_validate) d = Some (quiz q) /\
  required "related_topics" (validate_list validate_str) d
    = Some (related_topics q).
Proof.
  unfold QuizOutput_validate_dict. split.
  - intros H.
    repeat match type of H with
           | (mbind _ ?m) = Some _ => destruct m eqn:?; simpl in H; [|done]
           end.
    by injection H as <-.
  - intros (-> & -> & -> & -> & -> & -> & ->). simpl. by destruct q.
Qed.

Lemma QuizItem_validate_Some (v : json) (q : QuizItem) :
  QuizItem_validate v = Some q <->
  exists d, v = JObj d /\
  required "question" validate_str d = Some (question q) /\
  required "options"
    (fun v => validate_list validate_str v ≫= check_length 4 4) d
    = Some (options q) /\
  required "answer" validate_str d = Some (answer q) /\
  required "difficulty" (validate_literal Difficulty) d = Some (difficulty q) /\
  required "explanation" validate_str d = Some (explanation q).
Proof.
  split.
  - destruct v as [| | | | | |d]; try done. simpl. intros H. exists d.
    repeat match type of H with
           | (mbind _ ?m) = Some _ => destruct m eqn:?; simpl in H; [|done]
           end.
    by injection H as <-.
  - intros (d & -> & H1 & H2 & H3 & H4 & H5). simpl.
    rewrite H1, H2, H3, H4, H5. simpl. by destruct q.
Qed.

Lemma validate_str_Some (v : json) (s : string) :
  validate_str v = Some s <-> v = JStr s.
Proof. destruct v; simpl; split; congruence. Qed.

Lemma QuizItem_validate_shape (v : json) (q : QuizItem) :
  QuizItem_validate v = Some q -> item_shape q.
Proof.
  rewrite QuizItem_validate_Some.
  intros (d & _ & _ & Ho & _ & Hd & _). split.
  - apply required_Some in Ho as (v' & _ & Ho).
    destruct (validate_list validate_str v') as [l|]; simpl in Ho; [|done].
    unfold check_length in Ho.
    destruct (_ && _) eqn:E in Ho; [|done]. injection Ho as <-.
    apply andb_prop in E as [E1 E2].
    apply Nat.leb_le in E1, E2. lia.
  - apply required_Some in Hd as (v' & _ & Hd).
    destruct v' as [| | | |s| |]; try discriminate Hd.
    unfold validate_literal in Hd.
    destruct (existsb _ _) eqn:E in Hd; [|done]. injection Hd as <-.
    apply existsb_exists in E as (x & Hx & E).
    apply String.eqb_eq in E. by subst.
Qed.


(** ** The synthesizer *)

Import llm_quiz_generator.

Lemma lower_valid_difficulty (s : string) :
  In s Difficulty -> lower s = s.
Proof. intros [<-|[<-|[<-|[]]]]; reflexivity. Qed.

Lemma dict_set_same (k : string) (v : json) (d : dict) :
  dict_get k d = Some v -> dict_set k v d = d.
Proof.
  induction d as [|[k' v'] r IH]; simpl; [done|].
  destruct (String.eqb k k') eqn:E.
  - apply String.eqb_eq in E. subst k'. by intros [= ->].
  - intros H. by rewrite IH.
Qed.

(** On an item that passes the schema the lowering changes nothing. *)
Lemma lower_difficulty_valid (v : json) (q : QuizItem) :
  QuizItem_validate v = Some q -> lower_difficulty v = Some v.
Proof.
  intros H. pose proof (QuizItem_validate_shape _ _ H) as [_ Hin].
  apply QuizItem_validate_Some in H as (d & -> & _ & _ & _ & Hd & _).
  apply required_Some in Hd as (v & Hget & Hd). simpl. rewrite Hget.
  destruct v as [| | | |s| |]; try discriminate Hd.
  unfold validate_literal in Hd.
  destruct (existsb _ _) in Hd; [|done]. injection Hd as ->.
  rewrite lower_valid_difficulty by done.
  by rewrite dict_set_same.
Qed.

(** On a document that passes the schema the loop changes nothing. *)
Lemma lower_difficulties_valid (d : dict) (q : QuizOutput) :
  QuizOutput_validate_dict d = Some q -> lower_difficulties d = inl d.
Proof.
  intros H. apply QuizOutput_validate_dict_Some in H.
  destruct H as (_ & _ & _ & _ & _ & Hq & _).
  apply required_Some in Hq as (v & Hget & Hq).
  unfold lower_difficulties. rewrite Hget.
  destruct v as [| | | | |items|]; try discriminate Hq.
  simpl in Hq. apply mapM_Some in Hq.
  assert (mapM lower_difficulty items = Some items) as ->.
  { apply mapM_Some. clear Hget.
    induction Hq as [|x y l k Hxy _ IH]; constructor;
      eauto using lower_difficulty_valid. }
  by rewrite dict_set_same.
Qed.

Section Attempts.

Variable json_loads : string -> option json.
Variable generate_content : string -> string -> Reply.

(** An attempt succeeds exactly on a valid reply, and returns its
    document. *)
Lemma _try_once_inl (model_name prompt : string) (d : dict) :
  _try_once json_loads generate_content model_name prompt = inl d <->
  valid_reply json_loads (generate_content model_name prompt) d.
Proof.
  unfold _try_once, valid_reply. split.
  - destruct (generate_content model_name prompt) as [raw|e]; [|done].
    destruct (String.eqb (_clean_json_text raw) "") eqn:E; [done|].
    apply String.eqb_neq in E.
    destruct (json_loads (_clean_json_text raw)) as [[| | | | | |data]|] eqn:L;
      try done.
    destruct (QuizOutput_validate_dict data) as [q|] eqn:V; [|done].
    rewrite (lower_difficulties_valid _ _ V), V.
    intros [= <-]. exists raw. by rewrite V.
  - intros (raw & -> & E & L & [q V]).
    apply String.eqb_neq in E. rewrite E, L, V.
    by rewrite (lower_difficulties_valid _ _ V), V.
Qed.

Lemma _try_once_inr (model_name prompt : string) :
  invalid_reply json_loads (generate_content model_name prompt) ->
  exists e, _try_once json_loads generate_content model_name prompt = inr e.
Proof.
  intros H.
  destruct (_try_once json_loads generate_content model_name prompt)
    as [d|e] eqn:E; [|eauto].
  apply _try_once_inl in E. by destruct (H d).
Qed.

End Attempts.

(** What [stamp] does to a document that passes the schema. *)
Lemma stamp_validates (url0 title0 : string) (d : dict) (q : QuizOutput) :
  QuizOutput_validate_dict d = Some q ->
  QuizOutput_validate_dict (stamp url0 title0 d) =
    Some (mkQuizOutput url0
            (if String.eqb (title q) "" then title0 else title q)
            (summary q) (key_entities q) (sections q) (quiz q)
            (related_topics q)).
Proof.
  intros H. apply QuizOutput_validate_dict_Some in H.
  destruct H as (Hu & Ht & Hs & Hk & Hc & Hq & Hr).
  apply QuizOutput_validate_dict_Some. simpl. unfold stamp.
  rewrite dict_get_set_ne by done.
  pose proof Ht as Ht'.
  apply required_Some in Ht' as (v & Hget & Hv).
  apply validate_str_Some in Hv. subst v. rewrite Hget. simpl.
  repeat split;
    repeat first [rewrite required_set_eq | rewrite required_set_ne by done];
    try done.
  by destruct (String.eqb (title q) "").
Qed.

Lemma stamp_get (url0 title0 : string) (d : dict) (q : QuizOutput) :
  QuizOutput_validate_dict d = Some q ->
  dict_get "url" (stamp url0 title0 d) = Some (JStr url0) /\
  dict_get "title" (stamp url0 title0 d) =
    Some (JStr (if String.eqb (title q) "" then title0 else title q)).
Proof.
  intros H. apply stamp_validates with (url0 := url0) (title0 := title0) in H.
  apply QuizOutput_validate_dict_Some in H. simpl in H.
  destruct H as (Hu & Ht & _).
  apply required_Some in Hu as (v & Hget & Hv).
  apply validate_str_Some in Hv. subst v.
  apply required_Some in Ht as (v & Hget' & Hv).
  apply validate_str_Some in Hv. by subst v.
Qed.

(** Whatever [generate_quiz] returns is a stamped document that passed
    the schema. *)
Lemma generate_quiz_inl (json_loads : string -> option json)
  (generate_content : string -> string -> Reply)
  (listed : list ModelInfo) (env : option string)
  (url0 title0 text : string) (r : dict) :
  generate_quiz json_loads generate_content listed env url0 title0 text = inl r ->
  exists d q, r = stamp url0 title0 d /\ QuizOutput_validate_dict d = Some q.
Proof.
  unfold generate_quiz.
  destruct (_pick_model listed env) as [m|]; [|done].
  destruct (_try_once _ _ m (PROMPT_TEMPLATE_format _ _ _)) as [d|e] eqn:E1.
  - intros [= <-]. apply _try_once_inl in E1 as (_ & _ & _ & _ & [q V]). eauto.
  - destruct (_try_once _ _ m (_ ++ REMINDER)) as [d|e2] eqn:E2; [|done].
    intros [= <-]. apply _try_once_inl in E2 as (_ & _ & _ & _ & [q V]). eauto.
Qed.

(** *** C1: the shape the schema imposes *)




(** *** C3: the url and title of a second-attempt success *)

(** C3, as the code has it.  When the first attempt fails and the second
    succeeds, the returned document has the caller's url, and its title
    is the backend's own title unless that is empty, in which case it is
    the caller's title. *)
Theorem second_attempt_url_title
  (json_loads : string -> option json)
  (generate_content : string -> string -> Reply)
  (listed : list ModelInfo) (env : option string)
  (url0 title0 text m : string) (d2 : dict) :
  let prompt := PROMPT_TEMPLATE_format url0 title0 (truncate text) in
  _pick_model listed env = Some m ->
  invalid_reply json_loads (generate_content m prompt) ->
  valid_reply json_loads (generate_content m (prompt ++ REMINDER)) d2 ->
  exists out backend_title,
    generate_quiz json_loads generate_content listed env url0 title0 text
      = inl out /\
    dict_get "title" d2 = Some (JStr backend_title) /\
    dict_get "url" out = Some (JStr url0) /\
    dict_get "title" out =
      Some (JStr (if String.eqb backend_title "" then title0 else backend_title)).
Proof.
  intros prompt Hm H1 H2.
  apply _try_once_inr with (generate_content := generate_content) in H1 as [e1 E1].
  pose proof H2 as (_ & _ & _ & _ & [q V]).
  apply _try_once_inl with (generate_content := generate_content) in H2.
  exists (stamp url0 title0 d2), (title q).
  unfold generate_quiz. fold prompt. rewrite Hm, E1, H2.
  split; [done|]. split.
  - apply QuizOutput_validate_dict_Some in V as (_ & Ht & _).
    apply required_Some in Ht as (v & Hget & Hv).
    apply validate_str_Some in Hv. by subst v.
  - by apply stamp_get.
Qed.

Lemma undecodable_reply_invalid (json_loads : string -> option json)
  (raw : string) :
  json_loads (_clean_json_text raw) = None ->
  invalid_reply json_loads (Reply_text raw).
Proof. intros L d (raw' & [= <-] & _ & L' & _). congruence. Qed.

Lemma schema_violation_invalid (json_loads : string -> option json)
  (raw : string) (d : dict) :
  json_loads (_clean_json_text raw) = Some (JObj d) ->
  QuizOutput_validate_dict d = None ->
  invalid_reply json_loads (Reply_text raw).
Proof.
  intros L V d' (raw' & [= <-] & _ & L' & [q V']).
  rewrite L in L'. injection L' as <-. congruence.
Qed.

(** C3 as stated fails: the caller supplies the title [France], the
    second attempt succeeds, and the returned title is the backend's. *)
Lemma caller_title_not_returned :
  exists out,
    generate_quiz
      (samples.decoder
         (samples.document "French Republic" samples.entities []))
      samples.backend samples.listed None
      "https://en.wikipedia.org/wiki/France" "France" "France is a country."
      = inl out /\
    dict_get "title" out = Some (JStr "French Republic") /\
    dict_get "title" out <> Some (JStr "France").
Proof. eexists. split; [by vm_compute|]. by split. Qed.

Lemma second_attempt_url_title_witness :
  exists out backend_title,
    generate_quiz
      (samples.decoder
         (samples.document "French Republic" samples.entities []))
      samples.backend samples.listed None
      "https://en.wikipedia.org/wiki/France" "France" "France is a country."
      = inl out /\
    dict_get "title"
      (samples.document "French Republic" samples.entities [])
      = Some (JStr backend_title) /\
    dict_get "url" out = Some (JStr "https://en.wikipedia.org/wiki/France") /\
    dict_get "title" out =
      Some (JStr (if String.eqb backend_title "" then "France"
                  else backend_title)).
Proof.
  apply (second_attempt_url_title
           (samples.decoder
              (samples.document "French Republic" samples.entities []))
           samples.backend samples.listed None
           "https://en.wikipedia.org/wiki/France" "France"
           "France is a country." "models/gemini-1.5-flash").
  - reflexivity.
  - apply (undecodable_reply_invalid _ "Here is your quiz"). reflexivity.
  - exists "{}". repeat split; [by vm_compute|by eexists].
Defined.

(** *** C4: difficulty labels that are not lowercase *)

(** C4 at the failing input.  A reply that decodes to a document whose
    only defect is the difficulty label [Easy] makes the attempt fail
    with a [ValidationError]: the schema is checked before the labels
    are lowered.  Lowering the labels of that document would have made
    it pass. *)
Theorem capitalised_difficulty_rejected
  (json_loads : string -> option json)
  (generate_content : string -> string -> Reply)
  (model_name prompt raw : string) :
  generate_content model_name prompt = Reply_text raw ->
  _clean_json_text raw <> "" ->
  json_loads (_clean_json_text raw)
    = Some (JObj (samples.document "France" samples.entities
                    (repeat (samples.item "Easy" "Paris") 5))) ->
  _try_once json_loads generate_content model_name prompt
    = inr (Raised "ValidationError") /\
  exists d' q,
    lower_difficulties (samples.document "France" samples.entities
                          (repeat (samples.item "Easy" "Paris") 5)) = inl d' /\
    QuizOutput_validate_dict d' = Some q.
Proof.
  intros R E L. split.
  - unfold _try_once. rewrite R.
    apply String.eqb_neq in E. rewrite E, L. reflexivity.
  - eexists _, _. split; reflexivity.
Qed.

Lemma capitalised_difficulty_rejected_witness :
  _try_once
    (samples.decoder (samples.document "France" samples.entities
                        (repeat (samples.item "Easy" "Paris") 5)))
    (fun _ _ => Reply_text "{}") "models/gemini-1.5-flash" "prompt"
  = inr (Raised "ValidationError").
Proof.
  apply (capitalised_difficulty_rejected _ (fun _ _ => Reply_text "{}")
           "models/gemini-1.5-flash" "prompt" "{}");
    [reflexivity|by vm_compute|reflexivity].
Defined.

(** The loop that lowers the labels never changes a document: it runs
    only on documents that already passed the schema. *)
Lemma lowering_is_idle (json_loads : string -> option json)
  (generate_content : string -> string -> Reply)
  (model_name prompt : string) (d : dict) :
  _try_once json_loads generate_content model_name prompt = inl d ->
  exists raw, generate_content model_name prompt = Reply_text raw /\
              json_loads (_clean_json_text raw) = Some (JObj d).
Proof. intros H. apply _try_once_inl in H as (raw & ? & _ & ? & _). eauto. Qed.

(** *** C7: one retry on a malformed reply *)

(** C7.  If the first reply is not valid (it does not decode, or it
    violates the schema) then the nudged prompt, the same prompt with
    the reminder appended, is sent; if its reply is valid,
    [generate_quiz] returns that reply's document (stamped with url and
    title); if it is not valid either, [generate_quiz] fails with the
    failure of the second attempt. *)
Theorem retry_on_malformed_output
  (json_loads : string -> option json)
  (generate_content : string -> string -> Reply)
  (listed : list ModelInfo) (env : option string)
  (url0 title0 text m : string) :
  let prompt := PROMPT_TEMPLATE_format url0 title0 (truncate text) in
  _pick_model listed env = Some m ->
  invalid_reply json_loads (generate_content m prompt) ->
  (forall d2,
     valid_reply json_loads (generate_content m (prompt ++ REMINDER)) d2 ->
     generate_quiz json_loads generate_content listed env url0 title0 text
       = inl (stamp url0 title0 d2)) /\
  (invalid_reply json_loads (generate_content m (prompt ++ REMINDER)) ->
   exists e2,
     _try_once json_loads generate_content m (prompt ++ REMINDER) = inr e2 /\
     generate_quiz json_loads generate_content listed env url0 title0 text
       = inr (Model_failed m e2)).
Proof.
  intros prompt Hm H1.
  apply _try_once_inr with (generate_content := generate_content) in H1 as [e1 E1].
  unfold generate_quiz. fold prompt. rewrite Hm, E1. split.
  - intros d2 H2.
    apply _try_once_inl with (generate_content := generate_content) in H2.
    by rewrite H2.
  - intros H2.
    apply _try_once_inr with (generate_content := generate_content) in H2 as [e2 E2].
    exists e2. by rewrite E2.
Qed.

Lemma retry_on_malformed_output_witness :
  generate_quiz
    (samples.decoder (samples.document "France" samples.entities []))
    samples.backend samples.listed None
    "https://en.wikipedia.org/wiki/France" "Caller" "France is a country."
  = inl (stamp "https://en.wikipedia.org/wiki/France" "Caller"
           (samples.document "France" samples.entities [])).
Proof.
  apply (retry_on_malformed_output
           (samples.decoder (samples.document "France" samples.entities []))
           samples.backend samples.listed None
           "https://en.wikipedia.org/wiki/France" "Caller"
           "France is a country." "models/gemini-1.5-flash").
  - reflexivity.
  - apply (undecodable_reply_invalid _ "Here is your quiz"). reflexivity.
  - exists "{}". repeat split; [by vm_compute|by eexists].
Defined.

(** *** C9: the answer is not compared with the options *)

(** C9.  There is a quiz item whose answer is none of its four options
    and which the validator accepts; and the validator accepts an item
    with any string as its answer as soon as it accepts it with one. *)
Theorem answer_not_checked :
  (exists (v : json) (q : QuizItem),
     QuizItem_validate v = Some q /\
     length (options q) = 4%nat /\
     ~ In (answer q) (options q)) /\
  (forall (d : dict) (q : QuizItem) (a : string),
     QuizItem_validate (JObj d) = Some q ->
     QuizItem_validate (JObj (dict_set "answer" (JStr a) d))
       = Some (with_answer a q)).
Proof.
  split.
  - exists (samples.item "easy" "Berlin"). eexists.
    split; [reflexivity|]. split; [reflexivity|].
    simpl. intros [H|[H|[H|[H|[]]]]]; discriminate H.
  - intros d q a H.
    apply QuizItem_validate_Some in H as (d' & [= <-] & Hq & Ho & Ha & Hd & He).
    apply QuizItem_validate_Some. exists (dict_set "answer" (JStr a) d).
    simpl. repeat split;
      repeat first [rewrite required_set_eq | rewrite required_set_ne by done];
      done.
Qed.

Lemma answer_not_checked_witness :
  QuizItem_validate
    (JObj (dict_set "answer" (JStr "Berlin")
             [ ("question", JStr "Which city is the capital of France?");
               ("options",
                JArr [JStr "Paris"; JStr "Lyon"; JStr "Nice"; JStr "Lille"]);
               ("answer", JStr "Paris");
               ("difficulty", JStr "easy");
               ("explanation", JStr "Stated in the lead section.") ]))
  = Some (with_answer "Berlin"
            (mkQuizItem "Which city is the capital of France?"
               ["Paris"; "Lyon"; "Nice"; "Lille"] "Paris" "easy"
               "Stated in the lead section.")).
Proof. apply (proj2 answer_not_checked). reflexivity. Defined.

(** *** C10: entity lists that are left out *)

Lemma dict_get_omit (k : string) (fields : list string) (o : dict) :
  dict_get k (omit fields o) =
    if existsb (String.eqb k) fields then None else dict_get k o.
Proof.
  induction fields as [|f fs IH]; simpl; [done|].
  destruct (String.eqb k f) eqn:E; simpl.
  - apply String.eqb_eq in E. subst f. apply dict_get_del_eq.
  - apply String.eqb_neq in E. rewrite dict_get_del_ne by congruence. exact IH.
Qed.

Lemma with_default_omit (k : string) (fields : list string) (o : dict)
  (l : list string) :
  with_default k (validate_list validate_str) [] o = Some l ->
  with_default k (validate_list validate_str) [] (omit fields o)
    = Some (unless_omitted fields k l).
Proof.
  unfold with_default, unless_omitted. rewrite dict_get_omit.
  by destruct (existsb _ fields).
Qed.

Lemma KeyEntities_validate_omit (fields : list string) (o : dict)
  (ke : KeyEntities) :
  KeyEntities_validate (JObj o) = Some ke ->
  KeyEntities_validate (JObj (omit fields o)) = Some (defaulted fields ke).
Proof.
  simpl. intros H.
  repeat match type of H with
         | (mbind _ ?m) = Some _ => destruct m eqn:?; simpl in H; [|done]
         end.
  injection H as <-. simpl.
  by repeat (erewrite with_default_omit by eassumption; simpl).
Qed.

(** C10.  Take a document that passes the schema and leave any of the
    fields people, organizations, locations out of its [key_entities]
    object: the document still passes, and the lists left out are
    empty in the validated model. *)
Theorem omitted_entity_lists_default
  (d o : dict) (q : QuizOutput) (fields : list string) :
  QuizOutput_validate_dict d = Some q ->
  dict_get "key_entities" d = Some (JObj o) ->
  QuizOutput_validate_dict
    (dict_set "key_entities" (JObj (omit fields o)) d)
  = Some (with_key_entities (defaulted fields (key_entities q)) q).
Proof.
  intros V G.
  apply QuizOutput_validate_dict_Some in V as (Hu & Ht & Hs & Hk & Hc & Hq & Hr).
  apply QuizOutput_validate_dict_Some. simpl.
  repeat split;
    repeat first [rewrite required_set_eq | rewrite required_set_ne by done];
    try done.
  unfold required in Hk. rewrite G in Hk.
  by apply KeyEntities_validate_omit.
Qed.

Lemma omitted_entity_lists_default_witness :
  QuizOutput_validate_dict
    (dict_set "key_entities"
       (JObj (omit ["people"; "organizations"; "locations"] samples.entities))
       (samples.document "France" samples.entities
          [samples.item "easy" "Paris"]))
  = Some (mkQuizOutput "https://en.wikipedia.org/wiki/France" "France"
            "France is a country in Western Europe."
            (mkKeyEntities [] [] []) ["History"]
            [mkQuizItem "Which city is the capital of France?"
               ["Paris"; "Lyon"; "Nice"; "Lille"] "Paris" "easy"
               "Stated in the lead section."]
            ["Europe"]).
Proof.
  apply (omitted_entity_lists_default
           (samples.document "France" samples.entities
              [samples.item "easy" "Paris"])
           samples.entities
           (mkQuizOutput "https://en.wikipedia.org/wiki/France" "France"
              "France is a country in Western Europe."
              (mkKeyEntities ["Charles de Gaulle"] ["European Union"] ["Paris"])
              ["History"]
              [mkQuizItem "Which city is the capital of France?"
                 ["Paris"; "Lyon"; "Nice"; "Lille"] "Paris" "easy"
                 "Stated in the lead section."]
              ["Europe"])
           ["people"; "organizations"; "locations"]);
    reflexivity.
Defined.

(** ** Strings: stripping twice *)

Lemma append_assoc (a b c : string) : ((a ++ b) ++ c = a ++ (b ++ c))%string.
Proof. induction a as [|x a IH]; simpl; [done|]. by rewrite IH. Qed.

Lemma append_empty_r (a : string) : (a ++ "")%string = a.
Proof. induction a as [|x a IH]; simpl; [done|]. by rewrite IH. Qed.

Lemma rev_onto_spec (s acc : string) :
  rev_onto s acc = (Py.rev s ++ acc)%string.
Proof.
  unfold Py.rev. revert acc.
  induction s as [|x s IH]; intros acc; simpl; [done|].
  rewrite (IH (String x acc)), (IH (String x "")).
  by rewrite append_assoc.
Qed.

Lemma rev_append (a b : string) :
  Py.rev (a ++ b)%string = (Py.rev b ++ Py.rev a)%string.
Proof.
  induction a as [|x a IH]; simpl.
  - by rewrite append_empty_r.
  - unfold Py.rev at 1 3. simpl.
    rewrite !rev_onto_spec, IH. by rewrite append_assoc.
Qed.

Lemma rev_involutive (s : string) : Py.rev (Py.rev s) = s.
Proof.
  induction s as [|x s IH]; [done|].
  unfold Py.rev at 2. simpl. rewrite rev_onto_spec, rev_append, IH. done.
Qed.

Lemma lstrip_by_headed (p : ascii -> bool) (s : string) :
  headed p (lstrip_by p s).
Proof.
  induction s as [|x s IH]; simpl; [done|].
  by destruct (p x) eqn:E.
Qed.

Lemma lstrip_by_of_headed (p : ascii -> bool) (t : string) :
  headed p t -> lstrip_by p t = t.
Proof. destruct t as [|x t]; simpl; [done|]. by intros ->. Qed.

Lemma lstrip_by_suffix (p : ascii -> bool) (s : string) :
  exists v, s = (v ++ lstrip_by p s)%string.
Proof.
  induction s as [|x s [v IH]]; simpl.
  - by exists "".
  - destruct (p x).
    + exists (String x v). simpl. by rewrite <- IH.
    + by exists "".
Qed.

Lemma rstrip_by_prefix (p : ascii -> bool) (t : string) :
  exists w, t = (rstrip_by p t ++ w)%string.
Proof.
  unfold rstrip_by.
  destruct (lstrip_by_suffix p (Py.rev t)) as [v Hv].
  exists (Py.rev v).
  rewrite <- rev_append, <- Hv. by rewrite rev_involutive.
Qed.

Lemma rstrip_by_headed (p : ascii -> bool) (t : string) :
  headed p t -> headed p (rstrip_by p t).
Proof.
  intros H. destruct (rstrip_by_prefix p t) as [w Hw].
  destruct (rstrip_by p t) as [|c r]; [done|].
  rewrite Hw in H. exact H.
Qed.

Lemma strip_by_idempotent (p : ascii -> bool) (s : string) :
  strip_by p (strip_by p s) = strip_by p s.
Proof.
  unfold strip_by.
  rewrite (lstrip_by_of_headed p (rstrip_by p (lstrip_by p s)))
    by apply rstrip_by_headed, lstrip_by_headed.
  unfold rstrip_by. rewrite rev_involutive.
  by rewrite (lstrip_by_of_headed p (lstrip_by p _)) by apply lstrip_by_headed.
Qed.

Lemma strip_idempotent (s : string) : strip (strip s) = strip s.
Proof. apply strip_by_idempotent. Qed.

(** ** The fetcher *)

Import scraper.

Lemma mobile_url_https :
  mobile_url "https://en.wikipedia.org/wiki/France"
  = "https://m.wikipedia.org/wiki/France".
Proof. reflexivity. Qed.

(** *** C5: the fallback of the fetch *)




(** ** The endpoint *)

Import database cache_manager main.

(** *** Every call ends *)

Lemma step_rank (w : World) (db : Session) (s : Stage) :
  (rank (snd (step w db s)) <= pred (rank s))%nat.
Proof.
  destruct s as [b|u|u t x h r|u|o]; cbn [step snd].
  - unfold lookup_phase. destruct (negb _); [cbn; lia|].
    destruct (check_cache _ _) as [c|]; [|cbn; lia].
    destruct (truthy (JObj c)); cbn; lia.
  - unfold generate_phase.
    destruct (snd _) as [[[t x] h]|[[c|]|e]]; try (cbn; lia).
    + destruct (_ || _); [cbn; lia|].
      destruct (llm_quiz_generator.generate_quiz _ _ _ _ _ _ _); cbn; lia.
    + destruct (_ || _); cbn; lia.
  - unfold store_phase.
    destruct (add_commit _ _ _ _ _ _ _) as [db' [record|]]; cbn; lia.
  - unfold recover_phase. destruct (check_cache _ _) as [c|]; [|cbn; lia].
    destruct (truthy (JObj c)); cbn; lia.
  - cbn. lia.
Qed.

Lemma rank_zero (s : Stage) : rank s = 0%nat -> exists o, s = Finished o.
Proof. destruct s; simpl; try discriminate. eauto. Qed.

Lemma endpoint_steps (w : World) (db : Session) (body_url : string) :
  generate_quiz_endpoint w db body_url =
    let p1 := step w db (Start body_url) in
    let p2 := step w (fst p1) (snd p1) in
    let p3 := step w (fst p2) (snd p2) in
    step w (fst p3) (snd p3).
Proof. reflexivity. Qed.

(** The endpoint, run on its own, always ends with an outcome. *)
Lemma endpoint_finishes (w : World) (db : Session) (body_url : string) :
  exists o, snd (generate_quiz_endpoint w db body_url) = Finished o.
Proof.
  apply rank_zero. rewrite endpoint_steps. cbv zeta.
  pose proof (step_rank w db (Start body_url)) as H0. cbn [rank] in H0.
  set (p1 := step w db (Start body_url)) in *.
  pose proof (step_rank w (fst p1) (snd p1)) as H1.
  set (p2 := step w (fst p1) (snd p1)) in *.
  pose proof (step_rank w (fst p2) (snd p2)) as H2.
  set (p3 := step w (fst p2) (snd p2)) in *.
  pose proof (step_rank w (fst p3) (snd p3)) as H3.
  lia.
Qed.

(** *** C8: the minimum length of the extracted text *)





(** *** The table under concurrent calls *)

Lemma first_by_url_Some (db : Session) (u : string) (row : Quiz) :
  first_by_url db u = Some row -> row ∈ rows db /\ database.url row = u.
Proof.
  intros H. apply List.find_some in H as [Hin Hu].
  split; [by apply list_elem_of_In|by apply String.eqb_eq].
Qed.

Lemma first_by_url_None (db : Session) (u : string) :
  first_by_url db u = None -> u ∉ database.url <$> rows db.
Proof.
  intros H Hin. apply list_elem_of_fmap in Hin as (row & -> & Hin).
  apply list_elem_of_In in Hin.
  apply (List.find_none _ _ H) in Hin. by rewrite String.eqb_refl in Hin.
Qed.

Lemma first_by_url_present (db : Session) (row : Quiz) :
  row ∈ rows db -> is_Some (first_by_url db (database.url row)).
Proof.
  intros Hin. destruct (first_by_url db (database.url row)) eqn:E; [done|].
  apply first_by_url_None in E. destruct E.
  by apply list_elem_of_fmap_2.
Qed.

Lemma stage_ok_mono (db db' : Session) (body : string) (s : Stage)
  (more : list Quiz) :
  rows db' = (rows db ++ more)%list -> stage_ok db body s -> stage_ok db' body s.
Proof.
  intros E. destruct s as [| | | |[| |]]; simpl; try done.
  - intros (? & row & ? & ?). split; [done|]. exists row. rewrite E.
    split; [|done]. apply elem_of_app. by left.
  - intros (row & ? & ? & ?). exists row. rewrite E.
    split; [|done]. apply elem_of_app. by left.
Qed.

(** A step of a call keeps the urls of the table distinct, only adds
    rows, and leaves the call in a good stage. *)
Lemma step_preserves (w : World) (db db' : Session) (s s' : Stage)
  (body : string) :
  NoDup (database.url <$> rows db) ->
  stage_ok db body s ->
  step w db s = (db', s') ->
  NoDup (database.url <$> rows db') /\ stage_ok db' body s' /\
  exists more, rows db' = (rows db ++ more)%list.
Proof.
  intros Hnd Hok Hstep.
  destruct s as [b|u|u t x h r|u|o]; simpl in Hstep, Hok.
  - injection Hstep as <- <-. subst b.
    split; [done|]. split; [|exists []; by rewrite app_nil_r].
    unfold lookup_phase. destruct (valid_scheme (strip body)); cbn [negb]; [|done].
    unfold check_cache. rewrite strip_idempotent.
    destruct (first_by_url db (strip body)) as [row|] eqn:E; [|done].
    unfold cached_view. rewrite dict_set_nonempty.
    apply first_by_url_Some in E as [Hin Hu]. simpl.
    exists row. by repeat split; [| |right].
  - injection Hstep as <- <-. subst u.
    split; [done|]. split; [|exists []; by rewrite app_nil_r].
    unfold generate_phase.
    destruct (snd _) as [[[t x] h]|[[c|]|e]]; simpl; try done.
    + destruct (_ || _); [done|].
      by destruct (llm_quiz_generator.generate_quiz _ _ _ _ _ _ _).
    + by destruct (_ || _).
  - subst u. unfold store_phase, add_commit in Hstep.
    destruct (first_by_url db (strip body)) as [row|] eqn:E.
    + injection Hstep as <- <-.
      split; [done|]. split; [|exists []; by rewrite app_nil_r].
      apply first_by_url_Some in E as [Hin Hu]. simpl. eauto.
    + injection Hstep as <- <-. simpl.
      apply first_by_url_None in E.
      split; [|split; [|eauto]].
      * rewrite fmap_app. apply NoDup_app. split; [done|]. split.
        -- intros y Hy Hy'. apply list_elem_of_singleton in Hy'.
           simpl in Hy'. by subst y.
        -- apply NoDup_singleton.
      * eexists. split; [apply elem_of_app; right; apply list_elem_of_singleton; done|].
        split; [done|]. by left.
  - injection Hstep as <- <-. destruct Hok as (-> & row & Hin & Hu).
    split; [done|]. split; [|exists []; by rewrite app_nil_r].
    unfold recover_phase, check_cache. rewrite strip_idempotent.
    destruct (first_by_url_present _ _ Hin) as [row' E]. rewrite Hu in E.
    rewrite E. unfold cached_view. rewrite dict_set_nonempty.
    apply first_by_url_Some in E as [Hin' Hu']. simpl.
    exists row'. by repeat split; [| |right].
  - injection Hstep as <- <-.
    split; [done|]. split; [done|]. exists []. by rewrite app_nil_r.
Qed.

Lemma sys_step_inv (bodies : list string) (sys sys' : System) :
  sys_inv bodies sys -> sys_step sys sys' -> sys_inv bodies sys'.
Proof.
  intros [Hnd Hall] Hstep.
  destruct Hstep as [sys i w s s' db' Hi Hs].
  destruct (Forall2_lookup_r _ _ _ _ _ Hall Hi) as (body & Hb & Hok).
  destruct (step_preserves _ _ _ _ _ _ Hnd Hok Hs) as (Hnd' & Hok' & more & E).
  split; [done|]. simpl.
  rewrite <- (list_insert_id bodies i body Hb).
  apply Forall2_insert; [|done].
  eapply Forall2_impl; [exact Hall|].
  intros b s0. by apply stage_ok_mono with (more := more).
Qed.

Lemma reachable_inv (db : Session) (bodies : list string) (sys : System) :
  NoDup (database.url <$> rows db) ->
  reachable db bodies sys -> sys_inv bodies sys.
Proof.
  intros Hnd Hr. unfold reachable in Hr.
  refine (rtc_ind_r (sys_inv bodies) _ _ _ sys Hr).
  - split; [done|]. simpl. clear.
    induction bodies; constructor; done.
  - eauto using sys_step_inv.
Qed.

(** The rows of a table with distinct urls that have a given url. *)
Lemma filter_url_unique (l : list Quiz) (row : Quiz) :
  NoDup (database.url <$> l) -> row ∈ l ->
  List.filter (fun r => String.eqb (database.url r) (database.url row)) l
    = [row].
Proof.
  induction l as [|r l IH]; intros Hnd Hin; [by apply elem_of_nil in Hin|].
  rewrite fmap_cons in Hnd. apply NoDup_cons in Hnd as [Hr Hnd]. simpl.
  apply elem_of_cons in Hin as [->|Hin].
  - rewrite String.eqb_refl. f_equal.
    clear IH Hnd. induction l as [|r' l IH]; [done|]. simpl.
    rewrite fmap_cons in Hr. apply not_elem_of_cons in Hr as [Hne Hr].
    destruct (String.eqb (database.url r') (database.url r)) eqn:E.
    + apply String.eqb_eq in E. congruence.
    + by apply IH.
  - destruct (String.eqb (database.url r) (database.url row)) eqn:E.
    + apply String.eqb_eq in E. destruct Hr. rewrite E.
      by apply list_elem_of_fmap_2.
    + by apply IH.
Qed.

Lemma serves_id (row : Quiz) (payload : dict) :
  serves row payload -> dict_get "id" payload = Some (JInt (database.id row)).
Proof.
  intros [->| ->]; unfold fresh_view, cached_view;
    rewrite !dict_get_set_ne by done; apply dict_get_set_eq.
Qed.

Lemma sys_run_step (w : World) (sys : System) (i : nat) :
  rtc sys_step sys (sys_run w sys i).
Proof.
  unfold sys_run. destruct (calls sys !! i) as [s|] eqn:E; [|done].
  destruct (step w (store sys) s) as [db' s'] eqn:S.
  apply rtc_once. by apply (sys_step_call sys i w s s' db').
Qed.

Lemma schedule_steps (w : World) (order : list nat) (sys : System) :
  rtc sys_step sys (schedule w sys order).
Proof.
  revert sys. induction order as [|i order IH]; intros sys; [done|].
  simpl. etrans; [apply sys_run_step|apply IH].
Qed.

(** *** C2: one row per url *)


Lemma race_reachable :
  reachable samples.empty_table
    [" https://en.wikipedia.org/wiki/France";
     "https://en.wikipedia.org/wiki/France "]
    samples.race_final.
Proof.
  unfold reachable, samples.race_final, samples.race_conflict.
  etrans; [apply schedule_steps|apply sys_run_step].
Defined.


(** The race of the sample ends with one row and both calls returning
    its id, the first as a fresh result and the second as a cache hit. *)
Example race_outcome :
  length (rows (store samples.race_final)) = 1%nat /\
  (forall s, s ∈ calls samples.race_final ->
     exists payload, s = Finished (Returns payload) /\
                     dict_get "id" payload = Some (JInt 1)) /\
  (fun s => match s with
            | Finished (Returns p) => dict_get "cached" p
            | _ => None
            end) <$> calls samples.race_final
  = [Some (JBool false); Some (JBool true)].
Proof.
  split; [by vm_compute|]. split; [|by vm_compute].
  assert (exists p0 p1,
            calls samples.race_final =
              [Finished (Returns p0); Finished (Returns p1)] /\
            dict_get "id" p0 = Some (JInt 1) /\
            dict_get "id" p1 = Some (JInt 1)) as (p0 & p1 & E & H0 & H1).
  { eexists _, _. split; [by vm_compute|]. by split; vm_compute. }
  rewrite E. intros s Hs.
  apply elem_of_cons in Hs as [->|Hs]; [eauto|].
  apply list_elem_of_singleton in Hs as ->. eauto.
Qed.

(** *** C6: the recovery from a duplicate key *)

(** C6.  In every state that concurrent calls reach from a table with
    distinct urls: a call whose insert meets a row with its url gets the
    [IntegrityError], leaves the table as it is and drops what it
    synthesized; a call that got the [IntegrityError] finds, at its
    second lookup, the one row stored for its url and returns it
    marked as cached; and no call ever ends with the database error. *)
Theorem duplicate_key_recovered (db : Session) (bodies : list string)
  (sys : System) :
  NoDup (database.url <$> rows db) ->
  reachable db bodies sys ->
  (forall (w : World) (u t x h : string) (r : dict),
     u ∈ database.url <$> rows (store sys) ->
     step w (store sys) (Store u t x h r) = (store sys, Conflict u)) /\
  (forall (i : nat) (w : World) (u : string),
     calls sys !! i = Some (Conflict u) ->
     exists row,
       List.filter (fun r => String.eqb (database.url r) u) (rows (store sys))
         = [row] /\
       step w (store sys) (Conflict u)
         = (store sys, Finished (Returns (cached_view row))) /\
       dict_get "cached" (cached_view row) = Some (JBool true)) /\
  (forall (i : nat) (status_code : Z),
     calls sys !! i <>
       Some (Finished (HTTPException status_code (Literal "Database error")))).
Proof.
  intros Hnd Hr. destruct (reachable_inv _ _ _ Hnd Hr) as [Hnd' Hall].
  split; [|split].
  - intros w u t x h r Hin.
    apply list_elem_of_fmap in Hin as (row & -> & Hin).
    destruct (first_by_url_present _ _ Hin) as [row' E].
    simpl. unfold store_phase, add_commit. by rewrite E.
  - intros i w u Hc.
    destruct (Forall2_lookup_r _ _ _ _ _ Hall Hc) as (body & Hb & Hok).
    simpl in Hok. destruct Hok as (-> & row & Hin & Hu).
    destruct (first_by_url_present _ _ Hin) as [row' E]. rewrite Hu in E.
    exists row'. pose proof E as E'.
    apply first_by_url_Some in E' as [Hin' Hu'].
    split; [rewrite <- Hu'; by apply filter_url_unique|]. split.
    + simpl. unfold recover_phase, check_cache.
      rewrite strip_idempotent, E. unfold cached_view.
      by rewrite dict_set_nonempty.
    + unfold cached_view. rewrite dict_get_set_ne by done.
      apply dict_get_set_eq.
  - intros i c Hc.
    destruct (Forall2_lookup_r _ _ _ _ _ Hall Hc) as (body & Hb & Hok).
    by simpl in Hok.
Qed.

Lemma race_conflict_reachable :
  reachable samples.empty_table
    [" https://en.wikipedia.org/wiki/France";
     "https://en.wikipedia.org/wiki/France "]
    samples.race_conflict.
Proof. unfold reachable, samples.race_conflict. apply schedule_steps. Defined.

Lemma duplicate_key_recovered_witness :
  calls samples.race_conflict !! 1%nat
    = Some (Conflict "https://en.wikipedia.org/wiki/France") /\
  exists row,
    List.filter
      (fun r => String.eqb (database.url r)
                  "https://en.wikipedia.org/wiki/France")
      (rows (store samples.race_conflict)) = [row] /\
    step (samples.world "" []) (store samples.race_conflict)
      (Conflict "https://en.wikipedia.org/wiki/France")
      = (store samples.race_conflict, Finished (Returns (cached_view row))) /\
    dict_get "cached" (cached_view row) = Some (JBool true).
Proof.
  split; [by vm_compute|].
  apply (proj1 (proj2 (duplicate_key_recovered samples.empty_table
                         [" https://en.wikipedia.org/wiki/France";
                          "https://en.wikipedia.org/wiki/France "]
                         samples.race_conflict
                         (NoDup_nil_2 (A := string)) race_conflict_reachable))
           1%nat).
  by vm_compute.
Defined.

(** * Further properties of the code *)

Import notions_more routes.

(** ** The schema: keys that are not declared, fields that are missing *)

Lemma with_default_set_ne {A : Type} (k k' : string) (f : json -> option A)
  (a : A) (v : json) (d : dict) :
  k <> k' -> with_default k' f a (dict_set k v d) = with_default k' f a d.
Proof. intros. unfold with_default. by rewrite dict_get_set_ne. Qed.

(** X1.  The validator ignores keys the models do not declare: adding
    or changing such a key in the document, in a quiz item or in the
    entities object changes nothing in what validation gives. *)
Theorem undeclared_keys_ignored (d : dict) (k : string) (v : json) :
  (k ∉ QuizOutput_fields ->
   QuizOutput_validate_dict (dict_set k v d) = QuizOutput_validate_dict d) /\
  (k ∉ QuizItem_fields ->
   QuizItem_validate (JObj (dict_set k v d)) = QuizItem_validate (JObj d)) /\
  (k ∉ KeyEntities_fields ->
   KeyEntities_validate (JObj (dict_set k v d)) = KeyEntities_validate (JObj d)).
Proof.
  unfold QuizOutput_fields, QuizItem_fields, KeyEntities_fields.
  split; [|split]; intros H; rewrite !not_elem_of_cons in H.
  - unfold QuizOutput_validate_dict.
    by rewrite !required_set_ne by (intros ->; tauto).
  - simpl. by rewrite !required_set_ne by (intros ->; tauto).
  - simpl. by rewrite !with_default_set_ne by (intros ->; tauto).
Qed.

Lemma undeclared_keys_ignored_witness :
  QuizOutput_validate_dict
    (dict_set "comment" (JStr "generated")
       (samples.document "France" samples.entities
          [samples.item "easy" "Paris"]))
  = QuizOutput_validate_dict
      (samples.document "France" samples.entities
         [samples.item "easy" "Paris"]).
Proof.
  apply (proj1 (undeclared_keys_ignored
                  (samples.document "France" samples.entities
                     [samples.item "easy" "Paris"])
                  "comment" (JStr "generated"))).
  unfold QuizOutput_fields. rewrite !not_elem_of_cons.
  repeat split; try discriminate. apply not_elem_of_nil.
Defined.

(** X2.  Every field of QuizOutput is required: a document in which one
    of the seven keys is absent, or is null, is rejected. *)
Theorem missing_field_rejected (d : dict) (k : string) :
  k ∈ QuizOutput_fields ->
  dict_get k d = None \/ dict_get k d = Some JNull ->
  QuizOutput_validate_dict d = None.
Proof.
  intros Hk Hget.
  destruct (QuizOutput_validate_dict d) as [q|] eqn:E; [exfalso|done].
  apply QuizOutput_validate_dict_Some in E.
  destruct E as (Hu & Ht & Hs & Hke & Hc & Hq & Hr).
  unfold QuizOutput_fields in Hk. rewrite !elem_of_cons in Hk.
  assert (forall {A} (f : json -> option A) (a : A),
            f JNull = None -> required k f d = Some a -> False) as Hno.
  { intros A f a Hnull Hreq. apply required_Some in Hreq as (v & Hv & Hf).
    destruct Hget as [Hget|Hget]; rewrite Hget in Hv; [done|].
    injection Hv as <-. congruence. }
  destruct Hk as [->|[->|[->|[->|[->|[->|[->|Hk]]]]]]];
    try (eapply Hno; [|eassumption]; reflexivity).
  by apply elem_of_nil in Hk.
Qed.

Lemma missing_field_rejected_witness :
  QuizOutput_validate_dict
    (dict_del "summary"
       (samples.document "France" samples.entities
          [samples.item "easy" "Paris"]))
  = None.
Proof.
  apply (missing_field_rejected _ "summary").
  - unfold QuizOutput_fields. rewrite !elem_of_cons. tauto.
  - left. reflexivity.
Defined.

(** ** The choice of the model *)

Lemma find_char_append_None (c : ascii) (a b : string) :
  find_char c (a ++ b)%string = None <->
  find_char c a = None /\ find_char c b = None.
Proof.
  assert (forall o : option nat,
            match o with Some i => Some (S i) | None => None end = None
            <-> o = None) as Hs by (by intros [i|]).
  induction a as [|x a IH]; simpl; [tauto|].
  destruct (Ascii.eqb c x).
  - split; [done|]. by intros [? _].
  - by rewrite !Hs.
Qed.

Lemma find_char_rev_None (c : ascii) (s : string) :
  find_char c (Py.rev s) = None <-> find_char c s = None.
Proof.
  induction s as [|x s IH]; [done|].
  unfold Py.rev at 1. simpl. rewrite rev_onto_spec, find_char_append_None.
  simpl. rewrite IH.
  destruct (Ascii.eqb c x); [split; [by intros [_ ?]|done]|].
  destruct (find_char c s); split; try done; try tauto.
  by intros [? _].
Qed.

Lemma last_segment_from_slash_free (s cur : string) :
  find_char "/" cur = None ->
  find_char "/" (last_segment_from s cur) = None.
Proof.
  revert cur. induction s as [|x s IH]; intros cur H; simpl.
  - by apply find_char_rev_None.
  - destruct (Ascii.eqb x "/") eqn:E; [by apply IH|].
    apply IH. cbn [find_char]. rewrite Ascii.eqb_sym, E. by rewrite H.
Qed.

Lemma last_segment_from_of_slash_free (s cur : string) :
  find_char "/" s = None ->
  last_segment_from s cur = (Py.rev cur ++ s)%string.
Proof.
  revert cur. induction s as [|x s IH]; intros cur H; simpl.
  - by rewrite append_empty_r.
  - cbn [find_char] in H. rewrite Ascii.eqb_sym.
    destruct (Ascii.eqb "/" x); [done|].
    destruct (find_char "/" s) eqn:F; [done|].
    rewrite IH by done. unfold Py.rev at 1. simpl.
    rewrite rev_onto_spec. by rewrite append_assoc.
Qed.

(** The short name of a short name is itself. *)
Lemma last_segment_idempotent (s : string) :
  last_segment (last_segment s) = last_segment s.
Proof.
  unfold last_segment at 1.
  by rewrite last_segment_from_of_slash_free
    by by apply last_segment_from_slash_free.
Qed.

Lemma last_segment_models (s : string) :
  last_segment ("models/" ++ s) = last_segment s.
Proof. reflexivity. Qed.

Lemma str_in_In (s : string) (l : list string) :
  str_in s l = true <-> In s l.
Proof.
  unfold str_in. rewrite existsb_exists. split.
  - intros (x & Hx & E). apply String.eqb_eq in E. by subst.
  - intros H. exists s. by rewrite String.eqb_refl.
Qed.

Lemma capable_short_name_models (listed : list ModelInfo) (p : string) :
  In p (capable_short_names listed) -> last_segment ("models/" ++ p) = p.
Proof.
  unfold capable_short_names. intros H.
  apply in_map_iff in H as (m & <- & _).
  rewrite last_segment_models. apply last_segment_idempotent.
Qed.

(** The shape of [_pick_model]: nothing when no listed model supports
    [generateContent]; otherwise the override when it names a capable
    model, and the ranked choice when it does not. *)
Lemma _pick_model_unfold (listed : list ModelInfo) (env : option string) :
  _pick_model listed env =
    match List.filter (fun m => str_in "generateContent"
                                  (supported_generation_methods m)) listed with
    | [] => None
    | first :: _ =>
        let simple := capable_short_names listed in
        let by_rank :=
          match List.find (fun p => str_in p simple)
                  ["gemini-1.5-flash"; "gemini-1.5-flash-8b"] with
          | Some p => "models/" ++ p
          | None =>
              match List.find (contains "flash") simple with
              | Some s => "models/" ++ s
              | None => name first
              end
          end in
        Some
          match env with
          | Some desired =>
              if String.eqb desired "" then by_rank
              else if str_in desired simple then "models/" ++ desired
              else if startswith "models/" desired
                      && str_in (last_segment desired) simple
                   then desired
                   else by_rank
          | None => by_rank
          end
    end.
Proof.
  unfold _pick_model, capable_short_names.
  destruct (List.filter _ listed) as [|first rest]; [done|].
  by rewrite !map_map.
Qed.

(** X3.  [_pick_model] fails exactly when none of the listed models
    supports [generateContent], whatever the override says. *)
Theorem pick_model_fails_iff (listed : list ModelInfo) (env : option string) :
  _pick_model listed env = None <->
  forall m, In m listed ->
            ~ In "generateContent" (supported_generation_methods m).
Proof.
  rewrite _pick_model_unfold.
  destruct (List.filter _ listed) as [|first rest] eqn:F.
  - split; [|done]. intros _ m Hm Hin.
    apply str_in_In in Hin.
    assert (In m []) as []. rewrite <- F. apply filter_In. done.
  - split; [done|]. intros H.
    assert (In first (first :: rest)) as Hin by (by left).
    rewrite <- F in Hin. apply filter_In in Hin as [Hin Hs].
    apply str_in_In in Hs. by destruct (H first Hin).
Qed.




Lemma capable_short_names_nil (listed : list ModelInfo) :
  List.filter (fun m => str_in "generateContent"
                          (supported_generation_methods m)) listed = [] ->
  capable_short_names listed = [].
Proof. unfold capable_short_names. by intros ->. Qed.

(** X5.  The override [GEMINI_MODEL] is honoured when it names a capable
    model, by its short name or by its full name, and is otherwise
    ignored without an error: the choice is then the one made with no
    override. *)
Theorem override_honoured_or_ignored (listed : list ModelInfo)
  (desired : string) :
  (desired <> "" -> In desired (capable_short_names listed) ->
   _pick_model listed (Some desired) = Some ("models/" ++ desired)) /\
  (~ In desired (capable_short_names listed) ->
   startswith "models/" desired = true ->
   In (last_segment desired) (capable_short_names listed) ->
   _pick_model listed (Some desired) = Some desired) /\
  (desired = "" \/
   (~ In desired (capable_short_names listed) /\
    (startswith "models/" desired = false \/
     ~ In (last_segment desired) (capable_short_names listed))) ->
   _pick_model listed (Some desired) = _pick_model listed None).
Proof.
  rewrite !_pick_model_unfold.
  destruct (List.filter _ listed) as [|first rest] eqn:F.
  { rewrite (capable_short_names_nil _ F). by repeat split. }
  cbv zeta. split; [|split].
  - intros Hne Hin. apply String.eqb_neq in Hne. apply str_in_In in Hin.
    by rewrite Hne, Hin.
  - intros Hnot Hs Hin.
    destruct (String.eqb desired "") eqn:E.
    { apply String.eqb_eq in E. by subst. }
    destruct (str_in desired _) eqn:E1.
    { apply str_in_In in E1. by destruct Hnot. }
    apply str_in_In in Hin. by rewrite Hs, Hin.
  - intros [->|[Hnot Hor]]; [done|].
    destruct (String.eqb desired ""); [done|].
    destruct (str_in desired _) eqn:E1.
    { apply str_in_In in E1. by destruct Hnot. }
    destruct Hor as [->|Hno]; [done|].
    destruct (str_in (last_segment desired) _) eqn:E2.
    { apply str_in_In in E2. by destruct Hno. }
    by rewrite andb_false_r.
Qed.

Lemma override_honoured_or_ignored_witness :
  _pick_model
    [ mkModelInfo "models/gemini-pro" ["generateContent"];
      mkModelInfo "models/gemini-1.5-flash" ["generateContent"] ]
    (Some "gemini-pro")
  = Some "models/gemini-pro" /\
  _pick_model
    [ mkModelInfo "models/gemini-pro" ["generateContent"];
      mkModelInfo "models/gemini-1.5-flash" ["generateContent"] ]
    (Some "gemini-ultra")
  = _pick_model
      [ mkModelInfo "models/gemini-pro" ["generateContent"];
        mkModelInfo "models/gemini-1.5-flash" ["generateContent"] ]
      None.
Proof.
  split.
  - apply (proj1 (override_honoured_or_ignored
                    [ mkModelInfo "models/gemini-pro" ["generateContent"];
                      mkModelInfo "models/gemini-1.5-flash"
                        ["generateContent"] ]
                    "gemini-pro")); [discriminate|].
    left. reflexivity.
  - apply (proj2 (proj2 (override_honoured_or_ignored
                    [ mkModelInfo "models/gemini-pro" ["generateContent"];
                      mkModelInfo "models/gemini-1.5-flash"
                        ["generateContent"] ]
                    "gemini-ultra"))).
    right. split; [|left; reflexivity].
    intros [H|[H|[]]]; discriminate H.
Defined.

(** X6.  With no override, the ranked choice: [gemini-1.5-flash] when it
    is capable, else [gemini-1.5-flash-8b] when it is; and whenever some
    capable model has [flash] in its short name, so has the model
    chosen; when none has, the first capable model listed is chosen. *)
Theorem ranked_choice (listed : list ModelInfo) (m : string) :
  _pick_model listed None = Some m ->
  (In "gemini-1.5-flash" (capable_short_names listed) ->
   m = "models/gemini-1.5-flash") /\
  (~ In "gemini-1.5-flash" (capable_short_names listed) ->
   In "gemini-1.5-flash-8b" (capable_short_names listed) ->
   m = "models/gemini-1.5-flash-8b") /\
  ((exists s, In s (capable_short_names listed) /\ contains "flash" s = true) ->
   contains "flash" (last_segment m) = true) /\
  ((forall s, In s (capable_short_names listed) -> contains "flash" s = false) ->
   exists first rest,
     List.filter (fun m => str_in "generateContent"
                             (supported_generation_methods m)) listed
       = first :: rest /\
     m = name first).
Proof.
  rewrite _pick_model_unfold.
  destruct (List.filter _ listed) as [|first rest] eqn:F; [done|].
  cbv zeta. cbn [List.find]. intros H. apply (inj Some) in H. subst m.
  destruct (str_in "gemini-1.5-flash" _) eqn:E1.
  { apply str_in_In in E1. repeat split; try done.
    intros Hall. specialize (Hall _ E1). by vm_compute in Hall. }
  destruct (str_in "gemini-1.5-flash-8b" _) eqn:E2.
  { apply str_in_In in E2. repeat split; try done.
    - intros Hin. apply str_in_In in Hin. congruence.
    - intros Hall. specialize (Hall _ E2). by vm_compute in Hall. }
  split; [|split; [|split]].
  - intros Hin. apply str_in_In in Hin. congruence.
  - intros _ Hin. apply str_in_In in Hin. congruence.
  - intros (s & Hs & Hflash).
    destruct (List.find (contains "flash") _) as [s'|] eqn:E3.
    + apply List.find_some in E3 as [Hs' Hf'].
      by rewrite (capable_short_name_models _ _ Hs').
    + by rewrite (List.find_none _ _ E3 _ Hs) in Hflash.
  - intros Hall.
    destruct (List.find (contains "flash") _) as [s'|] eqn:E3.
    + apply List.find_some in E3 as [Hs' Hf'].
      by rewrite (Hall _ Hs') in Hf'.
    + eauto.
Qed.

Lemma ranked_choice_witness :
  contains "flash" (last_segment "models/gemini-2.0-flash") = true.
Proof.
  apply (proj1 (proj2 (proj2 (ranked_choice
           [ mkModelInfo "models/embedding-001" ["embedContent"];
             mkModelInfo "models/gemini-pro" ["generateContent"];
             mkModelInfo "models/gemini-2.0-flash" ["generateContent"] ]
           "models/gemini-2.0-flash" eq_refl)))).
  exists "gemini-2.0-flash". split; [|reflexivity].
  right. left. reflexivity.
Defined.

(** ** The cleaning of the reply *)

Lemma prefix_one (c : ascii) (s : string) :
  String.prefix (String c "") s = true <-> exists r, s = String c r.
Proof.
  destruct s as [|x r]; simpl.
  - split; [done|]. by intros [? ?].
  - destruct (ascii_dec c x) as [->|Hne].
    + split; [eauto|]. by destruct r.
    + split; [done|]. intros [r' [= <- _]]. done.
Qed.

Lemma endswith_one (c : ascii) (s : string) :
  endswith (String c "") s = true <-> exists w, Py.rev s = String c w.
Proof. unfold endswith. apply prefix_one. Qed.

(** A text between braces has nothing to strip. *)
Lemma strip_delimited (s : string) :
  startswith "{" s = true -> endswith "}" s = true -> strip s = s.
Proof.
  intros Hs He. apply prefix_one in Hs as [r ->].
  apply endswith_one in He as [w Hw].
  unfold strip, strip_by. rewrite lstrip_by_of_headed by done.
  unfold rstrip_by. rewrite Hw, lstrip_by_of_headed by done.
  by rewrite <- Hw, rev_involutive.
Qed.

(** X7.  A reply that is a JSON object, possibly with white space around
    it, comes out of the cleaning as the object alone. *)
Theorem clean_object_unchanged (text : string) :
  startswith "{" (strip text) = true ->
  endswith "}" (strip text) = true ->
  _clean_json_text text = strip text.
Proof.
  intros Hs He. unfold _clean_json_text.
  pose proof Hs as Hs'. apply prefix_one in Hs' as [r Hr].
  rewrite Hr. cbn [String.eqb]. rewrite <- Hr.
  assert (startswith "```" (strip text) = false) as -> by (by rewrite Hr).
  rewrite strip_idempotent, Hs, He.
  by destruct (String.eqb (strip text) "").
Qed.

Lemma clean_object_unchanged_witness :
  _clean_json_text "
  {1}
" = "{1}".
Proof. apply (clean_object_unchanged "
  {1}
"); reflexivity. Defined.

(** X8.  A reply that is blank, or that is a bare code fence with
    nothing in it, is reported as an empty model response, without
    being given to the decoder. *)
Theorem blank_reply_is_empty
  (json_loads : string -> option json)
  (generate_content : string -> string -> Reply)
  (model_name prompt raw : string) :
  generate_content model_name prompt = Reply_text raw ->
  strip raw = "" \/
  (startswith "```" (strip raw) = true /\
   strip_char "`" (strip raw) = "") ->
  _clean_json_text raw = "" /\
  _try_once json_loads generate_content model_name prompt
    = inr Empty_model_response.
Proof.
  intros R H.
  assert (_clean_json_text raw = "") as E.
  { unfold _clean_json_text. destruct H as [->|[Hf Hb]]; [done|].
    rewrite Hf, strip_idempotent, Hb.
    destruct (String.eqb (strip raw) "") eqn:E; [|done].
    by apply String.eqb_eq in E. }
  split; [done|]. unfold _try_once. by rewrite R, E.
Qed.

Lemma blank_reply_is_empty_witness :
  _clean_json_text "```
" = "" /\
  _try_once (fun _ => Some JNull) (fun _ _ => Reply_text "```
") "models/gemini-1.5-flash" "prompt" = inr Empty_model_response.
Proof.
  apply (blank_reply_is_empty (fun _ => Some JNull)
           (fun _ _ => Reply_text "```
") "models/gemini-1.5-flash" "prompt" "```
"); [reflexivity|].
  right. split; reflexivity.
Defined.

Lemma rfind_take_ends (d : ascii) (t : string) (e : nat) :
  rfind_char d t = Some e ->
  exists w, Py.rev (take (S e) t) = String d w.
Proof.
  revert e. induction t as [|x t IH]; intros e; cbn [rfind_char]; [done|].
  destruct (rfind_char d t) as [i|] eqn:F.
  - intros [= <-]. destruct (IH i eq_refl) as [w Hw].
    change (take (S (S i)) (String x t)) with (String x (take (S i) t)).
    unfold Py.rev. cbn [rev_onto]. rewrite rev_onto_spec, Hw. simpl. eauto.
  - destruct (Ascii.eqb d x) eqn:E; [|done]. intros [= <-].
    apply Ascii.eqb_eq in E. subst x. exists "". by destruct t.
Qed.

(** What is cut out between the first opening brace and the last
    closing brace starts and ends with them. *)
Lemma cut_delimited (c d : ascii) (t : string) (s e : nat) :
  find_char c t = Some s -> rfind_char d t = Some e -> (s < e)%nat ->
  (exists r, take (e + 1 - s) (drop s t) = String c r) /\
  (exists w, Py.rev (take (e + 1 - s) (drop s t)) = String d w).
Proof.
  revert s e. induction t as [|x t IH]; intros s e; cbn [find_char]; [done|].
  destruct (Ascii.eqb c x) eqn:E.
  - intros [= <-] Hr Hlt. apply Ascii.eqb_eq in E. subst x.
    replace (e + 1 - 0)%nat with (S e) by lia. cbn [drop]. split.
    + simpl. eauto.
    + by apply rfind_take_ends.
  - destruct (find_char c t) as [s'|] eqn:F; [|done]. intros [= <-].
    cbn [rfind_char].
    destruct (rfind_char d t) as [e'|] eqn:R.
    + intros [= <-] Hlt.
      replace (S e' + 1 - S s')%nat with (e' + 1 - s')%nat by lia.
      cbn [drop]. apply IH; [done|done|lia].
    + destruct (Ascii.eqb d x); [|done]. intros [= <-] Hlt. lia.
Qed.

(** X9.  What comes out of the cleaning either is an object between
    braces (up to white space around it) or holds no opening brace
    that comes before its last closing brace. *)
Theorem cleaned_text_is_delimited (text : string) (s e : nat) :
  find_char "{" (_clean_json_text text) = Some s ->
  rfind_char "}" (_clean_json_text text) = Some e ->
  (s < e)%nat ->
  startswith "{" (strip (_clean_json_text text)) = true /\
  endswith "}" (strip (_clean_json_text text)) = true.
Proof.
  unfold _clean_json_text.
  destruct (String.eqb (strip text) "") eqn:E0.
  { apply String.eqb_eq in E0. by rewrite E0. }
  set (t1 := if startswith "```" (strip text)
             then _ else strip text).
  destruct (negb (String.eqb t1 "")
            && negb (startswith "{" (strip t1) && endswith "}" (strip t1)))
    eqn:C.
  - destruct (find_char "{" t1) as [s1|] eqn:F1;
      [|intros F; by rewrite F1 in F].
    destruct (rfind_char "}" t1) as [e1|] eqn:R1;
      [|intros _ R; by rewrite R1 in R].
    destruct (s1 <? e1)%nat eqn:L.
    + intros _ _ _. apply Nat.ltb_lt in L.
      destruct (cut_delimited _ _ _ _ _ F1 R1 L) as [Hs He].
      apply prefix_one in Hs. apply endswith_one in He.
      by rewrite strip_delimited.
    + intros F R Hlt. rewrite F1 in F. rewrite R1 in R.
      injection F as <-. injection R as <-.
      apply Nat.ltb_ge in L. lia.
  - intros F R _. apply andb_false_iff in C as [C|C].
    + apply negb_false_iff, String.eqb_eq in C. by rewrite C in F.
    + apply negb_false_iff, andb_prop in C. done.
Qed.

Lemma cleaned_text_is_delimited_witness :
  startswith "{" (strip (_clean_json_text "Here it is: {1} Enjoy.")) = true /\
  endswith "}" (strip (_clean_json_text "Here it is: {1} Enjoy.")) = true.
Proof.
  apply (cleaned_text_is_delimited "Here it is: {1} Enjoy." 0 2);
    [reflexivity|reflexivity|lia].
Defined.

(** ** The bound on the article text *)







(** ** One attempt *)

(** X11.  An attempt succeeds exactly when the reply carries a text
    whose cleaned form is not empty and decodes to a dict that passes
    the schema as it is; what it returns is that dict, unchanged. *)
Theorem attempt_success_iff
  (json_loads : string -> option json)
  (generate_content : string -> string -> Reply)
  (model_name prompt : string) (d : dict) :
  _try_once json_loads generate_content model_name prompt = inl d <->
  exists raw q,
    generate_content model_name prompt = Reply_text raw /\
    _clean_json_text raw <> "" /\
    json_loads (_clean_json_text raw) = Some (JObj d) /\
    QuizOutput_validate_dict d = Some q.
Proof.
  rewrite _try_once_inl. unfold valid_reply. split.
  - intros (raw & ? & ? & ? & [q ?]). eauto 10.
  - intros (raw & q & ? & ? & ? & ?). exists raw. eauto 10.
Qed.

(** X12.  A failed attempt reports one of four things: the empty
    response, the exception the backend raised, a text that does not
    decode, or a decoded value that violates the schema.  The loop that
    lowers the labels never makes an attempt fail. *)
Theorem attempt_failures
  (json_loads : string -> option json)
  (generate_content : string -> string -> Reply)
  (model_name prompt : string) (f : Failure) :
  _try_once json_loads generate_content model_name prompt = inr f ->
  (exists e, generate_content model_name prompt = Reply_raises e /\
             f = Raised e) \/
  (exists raw, generate_content model_name prompt = Reply_text raw /\
     ((_clean_json_text raw = "" /\ f = Empty_model_response) \/
      (_clean_json_text raw <> "" /\
       json_loads (_clean_json_text raw) = None /\
       f = Raised "JSONDecodeError") \/
      (_clean_json_text raw <> "" /\
       (exists v, json_loads (_clean_json_text raw) = Some v /\
                  QuizOutput_model_validate v = None) /\
       f = Raised "ValidationError"))).
Proof.
  unfold _try_once.
  destruct (generate_content model_name prompt) as [raw|e]; [|intros [= <-]; eauto].
  intros H. right. exists raw. split; [done|].
  destruct (String.eqb (_clean_json_text raw) "") eqn:E.
  { apply String.eqb_eq in E. injection H as <-. by left. }
  apply String.eqb_neq in E. right.
  destruct (json_loads (_clean_json_text raw)) as [v|] eqn:L;
    [|injection H as <-; by left].
  right. split; [done|].
  destruct v as [| | | | | |data];
    try (injection H as <-; split; [by eexists|done]).
  destruct (QuizOutput_validate_dict data) as [q|] eqn:V.
  - rewrite (lower_difficulties_valid _ _ V), V in H. done.
  - injection H as <-. split; [by eexists|done].
Qed.

Lemma attempt_failures_witness :
  (exists e, samples.backend "models/gemini-1.5-flash" "prompt" = Reply_raises e /\
             Raised "JSONDecodeError" = Raised e) \/
  (exists raw, samples.backend "models/gemini-1.5-flash" "prompt" = Reply_text raw /\
     ((_clean_json_text raw = "" /\
       Raised "JSONDecodeError" = Empty_model_response) \/
      (_clean_json_text raw <> "" /\
       samples.decoder [] (_clean_json_text raw) = None /\
       Raised "JSONDecodeError" = Raised "JSONDecodeError") \/
      (_clean_json_text raw <> "" /\
       (exists v, samples.decoder [] (_clean_json_text raw) = Some v /\
                  QuizOutput_model_validate v = None) /\
       Raised "JSONDecodeError" = Raised "ValidationError"))).
Proof.
  apply (attempt_failures (samples.decoder []) samples.backend
           "models/gemini-1.5-flash" "prompt" (Raised "JSONDecodeError")).
  reflexivity.
Defined.

(** ** The two attempts together *)

Lemma stamp_get_other (url0 title0 k : string) (d : dict) :
  k <> "url" -> k <> "title" ->
  dict_get k (stamp url0 title0 d) = dict_get k d.
Proof.
  intros. unfold stamp. by rewrite !dict_get_set_ne by done.
Qed.

(** X13.  When the reply to the first prompt is valid, [generate_quiz]
    returns its document, stamped, whatever the backend would reply to
    the nudged prompt. *)
Theorem first_attempt_suffices
  (json_loads : string -> option json)
  (generate_content : string -> string -> Reply)
  (listed : list ModelInfo) (env : option string)
  (url0 title0 text m : string) (d1 : dict) :
  _pick_model listed env = Some m ->
  valid_reply json_loads
    (generate_content m (PROMPT_TEMPLATE_format url0 title0 (truncate text)))
    d1 ->
  generate_quiz json_loads generate_content listed env url0 title0 text
    = inl (stamp url0 title0 d1).
Proof.
  intros Hm H1.
  apply _try_once_inl with (generate_content := generate_content) in H1.
  unfold generate_quiz. by rewrite Hm, H1.
Qed.

Lemma first_attempt_suffices_witness :
  generate_quiz
    (samples.decoder (samples.document "France" samples.entities []))
    (fun _ _ => Reply_text "{}") samples.listed None
    "https://en.wikipedia.org/wiki/France" "Caller" "France is a country."
  = inl (stamp "https://en.wikipedia.org/wiki/France" "Caller"
           (samples.document "France" samples.entities [])).
Proof.
  apply (first_attempt_suffices
           (samples.decoder (samples.document "France" samples.entities []))
           (fun _ _ => Reply_text "{}") samples.listed None
           "https://en.wikipedia.org/wiki/France" "Caller"
           "France is a country." "models/gemini-1.5-flash").
  - reflexivity.
  - exists "{}". repeat split; [by vm_compute|by eexists].
Defined.

(** X14.  Whatever [generate_quiz] returns passes the schema, carries
    the url of the caller whatever url the backend wrote, has a title
    that is empty only if the caller's is, and agrees on every other
    key with the document of a valid reply to one of the two prompts. *)
Theorem generate_quiz_result
  (json_loads : string -> option json)
  (generate_content : string -> string -> Reply)
  (listed : list ModelInfo) (env : option string)
  (url0 title0 text : string) (r : dict) :
  generate_quiz json_loads generate_content listed env url0 title0 text
    = inl r ->
  (exists q, QuizOutput_validate_dict r = Some q /\
             models.url q = url0 /\
             (models.title q = "" -> title0 = "")) /\
  dict_get "url" r = Some (JStr url0) /\
  exists m d,
    _pick_model listed env = Some m /\
    (valid_reply json_loads
       (generate_content m
          (PROMPT_TEMPLATE_format url0 title0 (truncate text))) d \/
     valid_reply json_loads
       (generate_content m
          (PROMPT_TEMPLATE_format url0 title0 (truncate text) ++ REMINDER)) d) /\
    forall k, k <> "url" -> k <> "title" -> dict_get k r = dict_get k d.
Proof.
  intros H.
  assert (exists m d,
            _pick_model listed env = Some m /\
            (valid_reply json_loads
               (generate_content m
                  (PROMPT_TEMPLATE_format url0 title0 (truncate text))) d \/
             valid_reply json_loads
               (generate_content m
                  (PROMPT_TEMPLATE_format url0 title0 (truncate text)
                   ++ REMINDER)) d) /\
            r = stamp url0 title0 d) as (m & d & Hm & Hv & ->).
  { unfold generate_quiz in H.
    destruct (_pick_model listed env) as [m|]; [|done].
    destruct (_try_once _ _ m (PROMPT_TEMPLATE_format _ _ _)) as [d|e] eqn:E1.
    - injection H as <-. apply _try_once_inl in E1. eauto 10.
    - destruct (_try_once _ _ m (_ ++ REMINDER)) as [d|e2] eqn:E2; [|done].
      injection H as <-. apply _try_once_inl in E2. eauto 10. }
  assert (exists q, QuizOutput_validate_dict d = Some q) as [q V].
  { destruct Hv as [(_ & _ & _ & _ & [q V])|(_ & _ & _ & _ & [q V])]; eauto. }
  split; [|split].
  - eexists. split; [by apply stamp_validates|]. simpl. split; [done|].
    destruct (String.eqb (models.title q) "") eqn:E; [done|].
    intros Ht. apply String.eqb_neq in E. done.
  - by destruct (stamp_get url0 title0 d q V).
  - exists m, d. split; [done|]. split; [done|].
    intros k ? ?. by apply stamp_get_other.
Qed.

Lemma generate_quiz_result_witness :
  dict_get "url"
    (stamp "https://fr.wikipedia.org/wiki/France" "Caller"
       (samples.document "France" samples.entities []))
  = Some (JStr "https://fr.wikipedia.org/wiki/France").
Proof.
  apply (generate_quiz_result
           (samples.decoder (samples.document "France" samples.entities []))
           samples.backend samples.listed None
           "https://fr.wikipedia.org/wiki/France" "Caller"
           "France is a country.").
  by vm_compute.
Defined.



(** ** The requests of the fetcher *)

(** X16.  [scrape_wikipedia] sends one request, with the desktop
    headers, and a second one, with the mobile headers, exactly when
    the first ends in an HTTP error with status 403 or 429.  A first
    fetch that succeeds gives its markup, extracted; any other failure
    of the first fetch is raised as it is. *)
Theorem requests_sent
  (requests_get : string -> Headers -> GetResult)
  (_extract : string -> string * string) (url0 : string) :
  (fst (scrape_wikipedia requests_get _extract url0)
     = [(url0, DESKTOP_HEADERS); (mobile_url url0, MOBILE_HEADERS)] <->
   exists status,
     _fetch requests_get url0 DESKTOP_HEADERS
       = inr (HTTPError (Some status)) /\
     (status = 403 \/ status = 429)) /\
  (fst (scrape_wikipedia requests_get _extract url0)
     <> [(url0, DESKTOP_HEADERS); (mobile_url url0, MOBILE_HEADERS)] ->
   fst (scrape_wikipedia requests_get _extract url0)
     = [(url0, DESKTOP_HEADERS)] /\
   snd (scrape_wikipedia requests_get _extract url0) =
     match _fetch requests_get url0 DESKTOP_HEADERS with
     | inl html => inl (fst (_extract html), snd (_extract html), html)
     | inr e => inr e
     end).
Proof.
  unfold scrape_wikipedia.
  destruct (_fetch requests_get url0 DESKTOP_HEADERS) as [html|[[c|]|e]] eqn:F.
  - split; [split; [done|by intros (? & ? & _)]|].
    intros _. split; [done|]. simpl. by destruct (_extract html).
  - destruct ((c =? 403) || (c =? 429)) eqn:E.
    + split; [|done]. split; [|done]. intros _. exists c. split; [done|].
      apply orb_prop in E as [E|E]; apply Z.eqb_eq in E; auto.
    + split; [|done]. split; [done|].
      intros (s & [= <-] & Hs).
      apply orb_false_elim in E as [E1 E2].
      apply Z.eqb_neq in E1, E2. tauto.
  - split; [|done]. simpl. split; [done|].
    intros (s & [=] & _).
  - split; [|done]. split; [done|]. intros (s & [=] & _).
Qed.

Lemma requests_sent_witness :
  fst (scrape_wikipedia (samples.site 200) samples.extract
         "https://en.wikipedia.org/wiki/France")
  = [("https://en.wikipedia.org/wiki/France", DESKTOP_HEADERS);
     (mobile_url "https://en.wikipedia.org/wiki/France", MOBILE_HEADERS)].
Proof.
  apply (proj1 (requests_sent (samples.site 200) samples.extract
                  "https://en.wikipedia.org/wiki/France")).
  exists 403. split; [reflexivity|]. by left.
Defined.

Lemma replace_absent (old new s : string) :
  contains old s = false -> replace old new s = s.
Proof.
  unfold replace. induction s as [|c r IH]; [done|].
  cbn [contains replace_from]. intros H.
  apply orb_false_elim in H as [H1 H2].
  rewrite H1. by rewrite IH.
Qed.

Lemma prefix_append (old rest : string) :
  String.prefix old (old ++ rest)%string = true.
Proof.
  induction old as [|c o IH]; simpl; [by destruct rest|].
  by destruct (ascii_dec c c).
Qed.

Lemma replace_from_skip (old new p rest : string) :
  replace_from old new (String.length p) (p ++ rest)%string
  = replace_from old new 0 rest.
Proof. induction p as [|c p IH]; [by destruct rest|]. exact IH. Qed.

Lemma replace_head (old new rest : string) (c : ascii) (o : string) :
  old = String c o ->
  replace old new (old ++ rest)%string
  = (new ++ replace old new rest)%string.
Proof.
  intros ->. unfold replace.
  change (String c o ++ rest)%string with (String c (o ++ rest)%string).
  cbn [replace_from].
  change (String c (o ++ rest)%string) with (String c o ++ rest)%string.
  rewrite prefix_append.
  replace (String.length (String c o) - 1)%nat with (String.length o)
    by (simpl; lia).
  by rewrite replace_from_skip.
Qed.

(** X17.  The URL of the retry: a URL that starts with
    [https://en.wikipedia.org] is moved to [https://m.wikipedia.org],
    and a URL in which that text does not occur, such as one with the
    scheme [http] or on another host, is retried as it is. *)
Theorem mobile_url_cases (url0 : string) :
  mobile_url ("https://en.wikipedia.org" ++ url0)
    = ("https://m.wikipedia.org" ++ mobile_url url0)%string /\
  (contains "https://en.wikipedia.org" url0 = false -> mobile_url url0 = url0).
Proof.
  split; [|apply replace_absent].
  unfold mobile_url. by eapply replace_head.
Qed.

Lemma mobile_url_cases_witness :
  mobile_url "http://en.wikipedia.org/wiki/France"
  = "http://en.wikipedia.org/wiki/France".
Proof.
  apply (proj2 (mobile_url_cases "http://en.wikipedia.org/wiki/France")).
  reflexivity.
Defined.

(** ** The cache: lookup and insert *)

Lemma cached_view_get (row : Quiz) :
  dict_get "id" (cached_view row) = Some (JInt (database.id row)) /\
  dict_get "cached" (cached_view row) = Some (JBool true) /\
  dict_get "date_generated" (cached_view row)
    = Some (JStr (date_generated row)) /\
  forall k, k <> "id" -> k <> "cached" -> k <> "date_generated" ->
            dict_get k (cached_view row) = dict_get k (full_quiz_data row).
Proof.
  unfold cached_view. repeat split.
  - rewrite !dict_get_set_ne by done. apply dict_get_set_eq.
  - rewrite dict_get_set_ne by done. apply dict_get_set_eq.
  - apply dict_get_set_eq.
  - intros k ? ? ?. by rewrite !dict_get_set_ne by done.
Qed.



Lemma find_snoc {A : Type} (f : A -> bool) (l : list A) (x : A) :
  List.find f (l ++ [x])%list =
    match List.find f l with
    | Some y => Some y
    | None => if f x then Some x else None
    end.
Proof.
  induction l as [|y l IH]; simpl; [done|].
  by destruct (f y).
Qed.

(** X19.  Insert, then lookup.  A commit that succeeds gives the row
    the next id and leaves the other rows as they are; a lookup of its
    url then gives that row, provided the url was stored stripped, and
    a lookup of any other url gives what it gave before.  A commit
    fails exactly when the url is already stored, and then changes
    nothing. *)
Theorem insert_then_lookup (now : string) (db db' : Session)
  (u : string) (t : json) (text raw : option string) (d : dict)
  (r : option Quiz) :
  add_commit now db u t text raw d = (db', r) ->
  match r with
  | Some record =>
      (u ∉ database.url <$> rows db) /\
      rows db' = (rows db ++ [record])%list /\
      next_id db' = next_id db + 1 /\
      record = mkQuiz (next_id db) u t now text raw d /\
      (strip u = u -> check_cache db' u = Some (cached_view record)) /\
      (forall u', strip u' <> u -> check_cache db' u' = check_cache db u')
  | None => db' = db /\ (u ∈ database.url <$> rows db)
  end.
Proof.
  unfold add_commit.
  destruct (first_by_url db u) as [row|] eqn:E.
  - intros [= <- <-]. split; [done|].
    apply first_by_url_Some in E as [Hin <-]. by apply list_elem_of_fmap_2.
  - intros [= <- <-]. split; [by apply first_by_url_None|].
    repeat split.
    + intros Hs. unfold check_cache, first_by_url. simpl.
      rewrite Hs, find_snoc. unfold first_by_url in E. rewrite E. simpl.
      by rewrite String.eqb_refl.
    + intros u' Hne. unfold check_cache, first_by_url. simpl.
      rewrite find_snoc.
      destruct (List.find _ (rows db)); [done|]. simpl.
      destruct (String.eqb u (strip u')) eqn:E'; [|done].
      apply String.eqb_eq in E'. congruence.
Qed.

Lemma insert_then_lookup_witness :
  check_cache
    (fst (add_commit "2024-05-01T12:00:00" samples.empty_table
            "https://en.wikipedia.org/wiki/France" (JStr "France")
            None None []))
    "https://en.wikipedia.org/wiki/France"
  = Some (cached_view
            (mkQuiz 1 "https://en.wikipedia.org/wiki/France" (JStr "France")
               "2024-05-01T12:00:00" None None [])).
Proof.
  apply (insert_then_lookup "2024-05-01T12:00:00" samples.empty_table
           _ "https://en.wikipedia.org/wiki/France" (JStr "France")
           None None []
           (Some (mkQuiz 1 "https://en.wikipedia.org/wiki/France"
                    (JStr "France") "2024-05-01T12:00:00" None None []))
           eq_refl).
  reflexivity.
Defined.

(** ** The endpoint, run on its own *)

(** What the fetch-and-synthesize step can end in. *)
Lemma generate_phase_cases (w : World) (u : string) :
  (exists o, generate_phase w u = Finished o /\
     (o = blocked \/ (exists e, o = Propagates e) \/ o = insufficient \/
      exists e, o = HTTPException 500 (LLM_generation_failed e))) \/
  (exists t x h r q,
     generate_phase w u = Store u t x h r /\
     snd (scrape_wikipedia (requests_get w) (_extract w) u) = inl (t, x, h) /\
     (200 <= String.length x)%nat /\
     generate_quiz (json_loads w) (generate_content w) (list_models w)
       (GEMINI_MODEL w) u t x = inl r /\
     QuizOutput_validate_dict r = Some q /\
     models.url q = u /\
     dict_get "title" r = Some (JStr (models.title q))).
Proof.
  unfold generate_phase.
  destruct (snd (scrape_wikipedia _ _ u)) as [[[t x] h]|[[c|]|e]] eqn:S.
  - destruct (String.eqb x "" || (String.length x <? 200)%nat) eqn:G.
    { left. eexists. split; [done|]. right. right. by left. }
    apply orb_false_elim in G as [_ G]. apply Nat.ltb_ge in G.
    destruct (generate_quiz _ _ _ _ u t x) as [r|e] eqn:Q.
    + right. apply generate_quiz_inl in Q as Q'.
      destruct Q' as (d & q & -> & V).
      pose proof (stamp_validates u t _ _ V) as V'.
      destruct (stamp_get u t _ _ V) as [_ Ht].
      eexists t, x, h, _, _. repeat split; try done; try exact V'.
    + left. eexists. split; [done|]. right. right. right. eauto.
  - left. destruct ((c =? 403) || (c =? 429)); eexists; split; try done.
    + by left.
    + right. left. eauto.
  - left. eexists. split; [done|]. right. left. eauto.
  - left. eexists. split; [done|]. right. left. eauto.
Qed.

(** The four ways a call run on its own goes. *)
Lemma endpoint_cases (w : World) (db : Session) (body_url : string) :
  (valid_scheme (strip body_url) = false /\
   generate_quiz_endpoint w db body_url
     = (db, Finished (HTTPException 400 (Literal "Invalid URL")))) \/
  (valid_scheme (strip body_url) = true /\
   exists row,
     first_by_url db (strip body_url) = Some row /\
     generate_quiz_endpoint w db body_url
       = (db, Finished (Returns (cached_view row)))) \/
  (valid_scheme (strip body_url) = true /\
   first_by_url db (strip body_url) = None /\
   exists o,
     generate_phase w (strip body_url) = Finished o /\
     generate_quiz_endpoint w db body_url = (db, Finished o)) \/
  (valid_scheme (strip body_url) = true /\
   first_by_url db (strip body_url) = None /\
   exists t x h r,
     generate_phase w (strip body_url) = Store (strip body_url) t x h r /\
     generate_quiz_endpoint w db body_url
       = (table_with db (stored_row w db (strip body_url) t x h r),
          Finished (Returns
            (fresh_view (stored_row w db (strip body_url) t x h r))))).
Proof.
  rewrite endpoint_steps. cbv zeta. cbn [step]. unfold lookup_phase.
  destruct (valid_scheme (strip body_url)) eqn:Hv; cbn [negb fst snd step];
    [|by left].
  right. unfold check_cache. rewrite strip_idempotent.
  destruct (first_by_url db (strip body_url)) as [row|] eqn:E.
  { left. split; [done|]. exists row. split; [done|].
    assert (truthy (JObj (cached_view row)) = true) as ->
      by (unfold cached_view; apply dict_set_nonempty).
    by cbn [fst snd step]. }
  right. cbn [fst snd step].
  destruct (generate_phase_cases w (strip body_url))
    as [(o & -> & _)|(t & x & h & r & q & -> & _)].
  { left. split; [done|]. split; [done|]. by exists o. }
  right. split; [done|]. split; [done|]. exists t, x, h, r. split; [done|].
  cbn [fst snd step]. unfold store_phase, add_commit. rewrite E. done.
Qed.

Lemma first_by_url_table_with (db : Session) (row : Quiz) :
  first_by_url db (database.url row) = None ->
  first_by_url (table_with db row) (database.url row) = Some row.
Proof.
  unfold first_by_url, table_with. simpl. intros E.
  by rewrite find_snoc, E, String.eqb_refl.
Qed.

Lemma generate_phase_not_returns (w : World) (u : string) (payload : dict) :
  generate_phase w u <> Finished (Returns payload).
Proof.
  intros H.
  destruct (generate_phase_cases w u)
    as [(o & Ho & Hc)|(t & x & h & r & q & Ho & _)]; rewrite Ho in H; [|done].
  injection H as ->.
  destruct Hc as [Hc|[[e Hc]|[Hc|[e Hc]]]]; done.
Qed.

(** X20.  Calling twice.  When a call run on its own returns a dict,
    a second call with the same body, in any world, returns the stored
    row as a cache hit without changing the table: the same [id],
    [cached] true, and the same value under every key other than
    [cached] and [date_generated]. *)
Theorem second_call_is_a_cache_hit (w w' : World) (db db' : Session)
  (body_url : string) (payload : dict) :
  generate_quiz_endpoint w db body_url = (db', Finished (Returns payload)) ->
  exists row,
    row ∈ rows db' /\ database.url row = strip body_url /\
    generate_quiz_endpoint w' db' body_url
      = (db', Finished (Returns (cached_view row))) /\
    dict_get "id" (cached_view row) = dict_get "id" payload /\
    dict_get "cached" (cached_view row) = Some (JBool true) /\
    forall k, k <> "cached" -> k <> "date_generated" ->
              dict_get k (cached_view row) = dict_get k payload.
Proof.
  intros H.
  assert (forall db1 row,
            valid_scheme (strip body_url) = true ->
            first_by_url db1 (strip body_url) = Some row ->
            generate_quiz_endpoint w' db1 body_url
              = (db1, Finished (Returns (cached_view row)))) as Hhit.
  { intros db1 row Hv E.
    destruct (endpoint_cases w' db1 body_url)
      as [[Hv' _]|[(_ & row' & E' & ->)|[(_ & E' & _)|(_ & E' & _)]]];
      congruence. }
  destruct (endpoint_cases w db body_url)
    as [[_ R]|[(Hv & row & E & R)|[(Hv & E & o & G & R)|(Hv & E & t & x & h & r & G & R)]]];
    rewrite R in H.
  - done.
  - injection H as <- <-. exists row.
    pose proof (first_by_url_Some _ _ _ E) as [Hin Hu].
    split; [done|]. split; [done|]. split; [by apply Hhit|].
    split; [done|]. split; [apply cached_view_get|done].
  - injection H as <- ->. by apply generate_phase_not_returns in G.
  - injection H as <- <-.
    set (row := stored_row w db (strip body_url) t x h r).
    exists row. split; [apply elem_of_app; right; by apply list_elem_of_singleton|].
    split; [done|]. split.
    { apply Hhit; [done|]. by apply (first_by_url_table_with db row). }
    split; [|split; [apply cached_view_get|]].
    + unfold cached_view, fresh_view.
      by rewrite (dict_get_set_ne "date_generated" "id"),
           !(dict_get_set_ne "cached" "id") by done.
    + intros k ? ?. unfold cached_view, fresh_view.
      by rewrite (dict_get_set_ne "date_generated" k),
           !(dict_get_set_ne "cached" k) by congruence.
Qed.

Lemma second_call_is_a_cache_hit_witness :
  exists row,
    row ∈ rows (fst (generate_quiz_endpoint
                       (samples.world (samples.filler 200)
                          (samples.document "France" samples.entities []))
                       samples.empty_table
                       "https://en.wikipedia.org/wiki/France")) /\
    database.url row = strip "https://en.wikipedia.org/wiki/France" /\
    generate_quiz_endpoint (samples.world "" [])
      (fst (generate_quiz_endpoint
              (samples.world (samples.filler 200)
                 (samples.document "France" samples.entities []))
              samples.empty_table "https://en.wikipedia.org/wiki/France"))
      "https://en.wikipedia.org/wiki/France"
    = (fst (generate_quiz_endpoint
              (samples.world (samples.filler 200)
                 (samples.document "France" samples.entities []))
              samples.empty_table "https://en.wikipedia.org/wiki/France"),
       Finished (Returns (cached_view row))) /\
    dict_get "id" (cached_view row) = Some (JInt 1).
Proof.
  assert (generate_quiz_endpoint
            (samples.world (samples.filler 200)
               (samples.document "France" samples.entities []))
            samples.empty_table "https://en.wikipedia.org/wiki/France"
          = (fst (generate_quiz_endpoint
                    (samples.world (samples.filler 200)
                       (samples.document "France" samples.entities []))
                    samples.empty_table
                    "https://en.wikipedia.org/wiki/France"),
             Finished (Returns (fresh_view
                 (stored_row
                    (samples.world (samples.filler 200)
                       (samples.document "France" samples.entities []))
                    samples.empty_table
                    "https://en.wikipedia.org/wiki/France" "Untitled"
                    (samples.filler 200) (samples.filler 200)
                    (samples.document "France" samples.entities []))))))
    as Hrun1 by (by vm_compute).
  destruct (second_call_is_a_cache_hit _ (samples.world "" []) _ _ _ _ Hrun1)
    as (row & Hin & Hu & Hrun & Hid & _).
  exists row. repeat split; done.
Defined.

Lemma stored_row_complete (w : World) (db : Session)
  (u t x h : string) (r : dict) (q : QuizOutput) :
  QuizOutput_validate_dict r = Some q -> models.url q = u ->
  dict_get "title" r = Some (JStr (models.title q)) ->
  (200 <= String.length x)%nat ->
  row_complete (stored_row w db u t x h r).
Proof.
  intros V Hu Ht Hx. exists q, x. unfold stored_row, record_title. simpl.
  rewrite Ht. by repeat split.
Qed.

(** X21.  A call run on its own changes the table only when it returns
    a freshly generated quiz, and then by exactly one row: for a url
    that had no row, with the next id, the document that was returned,
    which passes the schema and carries that url, and the text and the
    markup that were fetched.  Every call that ends in an error, and
    every cache hit, leaves the table as it was. *)
Theorem table_changes_only_on_success (w : World) (db db' : Session)
  (body_url : string) (s : Stage) :
  generate_quiz_endpoint w db body_url = (db', s) ->
  exists o, s = Finished o /\
    (db' = db \/
     exists row,
       db' = table_with db row /\
       o = Returns (fresh_view row) /\
       database.id row = next_id db /\
       database.url row = strip body_url /\
       (strip body_url ∉ database.url <$> rows db) /\
       row_complete row).
Proof.
  intros H.
  destruct (endpoint_cases w db body_url)
    as [[_ R]|[(Hv & row & E & R)|[(Hv & E & o & G & R)|(Hv & E & t & x & h & r & G & R)]]];
    rewrite R in H; injection H as <- <-; eexists; (split; [done|]);
    try by left.
  right. eexists. repeat split; try done.
  - by apply first_by_url_None.
  - destruct (generate_phase_cases w (strip body_url))
      as [(o & Ho & _)|(t' & x' & h' & r' & q & Ho & _ & Hx & _ & V & Hu & Ht)];
      rewrite Ho in G; [done|].
    injection G as <- <- <- <-.
    by eapply stored_row_complete.
Qed.

Lemma table_changes_only_on_success_witness :
  exists o,
    Finished insufficient = Finished o /\
    (samples.empty_table = samples.empty_table \/
     exists row,
       samples.empty_table = table_with samples.empty_table row /\
       o = Returns (fresh_view row) /\
       database.id row = next_id samples.empty_table /\
       database.url row = strip "https://en.wikipedia.org/wiki/France" /\
       (strip "https://en.wikipedia.org/wiki/France"
          ∉ database.url <$> rows samples.empty_table) /\
       row_complete row).
Proof.
  apply (table_changes_only_on_success
           (samples.world (samples.filler 199)
              (samples.document "France" samples.entities []))
           samples.empty_table samples.empty_table
           "https://en.wikipedia.org/wiki/France").
  by vm_compute.
Defined.


(** X23.  A fetch that stays blocked.  On a cache miss, when the first
    response has status 403 or 429 and the response to the retry has a
    status that [raise_for_status] rejects, the call ends with the 422
    of a blocked fetch if that second status is 403 or 429, and
    otherwise lets the HTTP error of the retry through. *)
Theorem blocked_fetch (w : World) (db : Session) (body_url : string)
  (status status' : Z) (text text' : string) :
  valid_scheme (strip body_url) = true ->
  check_cache db (strip body_url) = None ->
  requests_get w (strip body_url) DESKTOP_HEADERS = Response status text ->
  status = 403 \/ status = 429 ->
  requests_get w (mobile_url (strip body_url)) MOBILE_HEADERS
    = Response status' text' ->
  raise_for_status status' = true ->
  generate_quiz_endpoint w db body_url =
    (db, Finished (if (status' =? 403) || (status' =? 429)
                   then blocked
                   else Propagates (HTTPError (Some status')))).
Proof.
  intros Hv Hc G1 Hs G2 R2.
  assert (first_by_url db (strip body_url) = None) as E.
  { unfold check_cache in Hc. rewrite strip_idempotent in Hc.
    by destruct (first_by_url db (strip body_url)). }
  assert (generate_phase w (strip body_url) =
          Finished (if (status' =? 403) || (status' =? 429)
                    then blocked
                    else Propagates (HTTPError (Some status')))) as G.
  { assert (_fetch (requests_get w) (strip body_url) DESKTOP_HEADERS
            = inr (HTTPError (Some status))) as F1.
    { unfold _fetch. rewrite G1. by destruct Hs as [->| ->]. }
    assert (_fetch (requests_get w) (mobile_url (strip body_url))
              MOBILE_HEADERS = inr (HTTPError (Some status'))) as F2.
    { unfold _fetch. by rewrite G2, R2. }
    assert ((status =? 403) || (status =? 429) = true) as Hb
      by (by destruct Hs as [->| ->]).
    unfold generate_phase, scrape_wikipedia.
    rewrite F1, Hb. cbn [snd]. rewrite F2.
    by destruct ((status' =? 403) || (status' =? 429)). }
  destruct (endpoint_cases w db body_url)
    as [[Hv' _]|[(_ & row & E' & _)|[(_ & _ & o & G' & R)|(_ & _ & t & x & h & r & G' & _)]]];
    congruence.
Qed.

Lemma blocked_fetch_witness :
  generate_quiz_endpoint
    (mkWorld (samples.site 429) samples.extract samples.listed None
       samples.backend (samples.decoder []) "2024-05-01T12:00:00")
    samples.empty_table "https://en.wikipedia.org/wiki/France"
  = (samples.empty_table, Finished blocked).
Proof.
  apply (blocked_fetch
           (mkWorld (samples.site 429) samples.extract samples.listed None
              samples.backend (samples.decoder []) "2024-05-01T12:00:00")
           samples.empty_table "https://en.wikipedia.org/wiki/France"
           403 429 "Forbidden" "<h1>France</h1><p>mobile</p>");
    try reflexivity.
  by left.
Defined.

(** ** The endpoint [/preview] *)



(** X25.  A url that previews is not refused by the fetch of
    [/generate_quiz]: in the same world the call for the same body ends
    with a dict, with the 422 of a text that is too short or with the
    500 of a failed generation, never with the 400, the blocked 422 or
    an exception of the fetch. *)
Theorem preview_then_generate (w : World) (db : Session)
  (body_url : string) (payload : dict) :
  preview_url (requests_get w) (_extract w) body_url
    = Preview_returns payload ->
  exists o,
    snd (generate_quiz_endpoint w db body_url) = Finished o /\
    ((exists p, o = Returns p) \/ o = insufficient \/
     exists e, o = HTTPException 500 (LLM_generation_failed e)).
Proof.
  intros H. unfold preview_url in H.
  destruct (valid_scheme (strip body_url)) eqn:Hv; cbn [negb] in H; [|done].
  destruct (contains _ _); cbn [negb] in H; [|done].
  destruct (snd (scrape_wikipedia _ _ (strip body_url)))
    as [[[t x] h]|[[c|]|e]] eqn:S;
    [|by destruct ((c =? 403) || (c =? 429))|done|done].
  destruct (endpoint_cases w db body_url)
    as [[Hv' R]|[(_ & row & E & R)|[(_ & E & o & G & R)|(_ & E & t' & x' & h' & r & G & R)]]];
    rewrite R; [congruence|eauto|..|eauto].
  exists o. split; [done|].
  unfold generate_phase in G. rewrite S in G.
  destruct (_ || _); [injection G as <-; auto|].
  destruct (generate_quiz _ _ _ _ _ _ _); [done|].
  injection G as <-. eauto.
Qed.

Lemma preview_then_generate_witness :
  exists o,
    snd (generate_quiz_endpoint
           (samples.world (samples.filler 199) [])
           samples.empty_table "https://en.wikipedia.org/wiki/France")
      = Finished o /\
    ((exists p, o = Returns p) \/ o = insufficient \/
     exists e, o = HTTPException 500 (LLM_generation_failed e)).
Proof.
  apply (preview_then_generate (samples.world (samples.filler 199) [])
           samples.empty_table "https://en.wikipedia.org/wiki/France"
           [("url", JStr "https://en.wikipedia.org/wiki/France");
            ("title", JStr "Untitled"); ("valid", JBool true)]).
  reflexivity.
Defined.

(** ** The endpoint [/quiz/{id}] *)


Lemma get_by_id_unique (l : list Quiz) (n : Z) (row : Quiz) :
  NoDup (database.id <$> l) -> row ∈ l ->
  get_by_id (mkSession l n) (database.id row) = Some row.
Proof.
  unfold get_by_id. simpl.
  induction l as [|r l IH]; intros Hnd Hin; [by apply elem_of_nil in Hin|].
  rewrite fmap_cons in Hnd. apply NoDup_cons in Hnd as [Hr Hnd]. simpl.
  apply elem_of_cons in Hin as [->|Hin].
  - by rewrite Z.eqb_refl.
  - destruct (database.id r =? database.id row) eqn:E; [|by apply IH].
    apply Z.eqb_eq in E. destruct Hr. rewrite E.
    by apply list_elem_of_fmap_2.
Qed.

Lemma ids_fresh_table_with (db : Session) (row : Quiz) :
  ids_fresh db -> database.id row = next_id db ->
  ids_fresh (table_with db row).
Proof.
  intros [Hlt Hnd] Hid. unfold ids_fresh, table_with. simpl. split.
  - apply Forall_app. split.
    + eapply Forall_impl; [exact Hlt|]. intros r ?. simpl in *. lia.
    + apply Forall_singleton. lia.
  - rewrite fmap_app. apply NoDup_app. split; [done|]. split.
    + intros i Hi Hi'. apply list_elem_of_singleton in Hi'. subst i.
      apply list_elem_of_fmap in Hi as (r & Hr & Hin).
      rewrite Forall_forall in Hlt. specialize (Hlt r Hin). lia.
    + apply NoDup_singleton.
Qed.

(** What a call run on its own returns is a view of a row of the
    table it leaves. *)
Lemma endpoint_returns_row (w : World) (db db' : Session)
  (body_url : string) (payload : dict) :
  generate_quiz_endpoint w db body_url = (db', Finished (Returns payload)) ->
  exists row,
    row ∈ rows db' /\ database.url row = strip body_url /\
    serves row payload /\
    (db' = db \/ (db' = table_with db row /\ database.id row = next_id db)).
Proof.
  intros H.
  destruct (endpoint_cases w db body_url)
    as [[_ R]|[(Hv & row & E & R)|[(Hv & E & o & G & R)|(Hv & E & t & x & h & r & G & R)]]];
    rewrite R in H.
  - done.
  - injection H as <- <-. exists row.
    apply first_by_url_Some in E as [Hin Hu].
    split; [done|]. split; [done|]. split; [by right|by left].
  - injection H as <- ->. by apply generate_phase_not_returns in G.
  - injection H as <- <-. eexists.
    split; [apply elem_of_app; right; by apply list_elem_of_singleton|].
    split; [done|]. split; [by left|]. by right.
Qed.

(** X26.  Generate, then read by id.  After a call run on its own has
    returned a dict, in a table whose ids are in order, [get_quiz] with
    the [id] of that dict returns the stored row: the same value under
    every key other than [cached] and [date_generated]. *)
Theorem get_quiz_after_generate (w : World) (db db' : Session)
  (body_url : string) (payload : dict) (i : Z) :
  ids_fresh db ->
  generate_quiz_endpoint w db body_url = (db', Finished (Returns payload)) ->
  dict_get "id" payload = Some (JInt i) ->
  exists row,
    row ∈ rows db' /\ database.url row = strip body_url /\
    get_quiz db' i = Returns (detail_view row) /\
    dict_get "date_generated" (detail_view row)
      = Some (JStr (date_generated row)) /\
    forall k, k <> "cached" -> k <> "date_generated" ->
              dict_get k (detail_view row) = dict_get k payload.
Proof.
  intros Hf H Hid.
  destruct (endpoint_returns_row _ _ _ _ _ H) as (row & Hin & Hu & Hs & Hdb).
  rewrite (serves_id _ _ Hs) in Hid. injection Hid as <-.
  assert (ids_fresh db') as [_ Hnd].
  { destruct Hdb as [->|[-> Hi]]; [done|]. by apply ids_fresh_table_with. }
  exists row. split; [done|]. split; [done|]. split; [|split].
  - unfold get_quiz. destruct db' as [l n].
    by rewrite (get_by_id_unique l n row Hnd Hin).
  - unfold detail_view. apply dict_get_set_eq.
  - intros k Hc Hd. unfold detail_view.
    rewrite (dict_get_set_ne "date_generated" k) by congruence.
    destruct Hs as [->| ->]; unfold fresh_view, cached_view.
    + by rewrite (dict_get_set_ne "cached" k) by congruence.
    + by rewrite (dict_get_set_ne "date_generated" k),
           (dict_get_set_ne "cached" k) by congruence.
Qed.

Lemma get_quiz_after_generate_witness :
  exists row,
    row ∈ rows (store samples.race_final) /\
    database.url row = strip "https://en.wikipedia.org/wiki/France" /\
    get_quiz (store samples.race_final) 1 = Returns (detail_view row) /\
    dict_get "date_generated" (detail_view row)
      = Some (JStr (date_generated row)) /\
    forall k, k <> "cached" -> k <> "date_generated" ->
              dict_get k (detail_view row)
              = dict_get k
                  (cached_view
                     (stored_row
                        (samples.world (samples.filler 200)
                           (samples.document "France" samples.entities
                              [samples.item "easy" "Paris"]))
                        samples.empty_table
                        "https://en.wikipedia.org/wiki/France" "Untitled"
                        (samples.filler 200) (samples.filler 200)
                        (samples.document "France" samples.entities
                           [samples.item "easy" "Paris"]))).
Proof.
  apply (get_quiz_after_generate (samples.world "" [])
           (store samples.race_final) (store samples.race_final)
           "https://en.wikipedia.org/wiki/France").
  - split; [|by vm_compute; apply NoDup_singleton].
    vm_compute. apply Forall_singleton. done.
  - by vm_compute.
  - by vm_compute.
Defined.


(** ** What concurrent calls do to the table *)

(** A step leaves the table as it is or appends one complete row with
    the next id. *)
Lemma step_effect (w : World) (db db' : Session) (s s' : Stage) :
  stage_complete s ->
  step w db s = (db', s') ->
  stage_complete s' /\
  (db' = db \/
   exists row, db' = table_with db row /\ database.id row = next_id db /\
               row_complete row).
Proof.
  intros Hc Hstep.
  destruct s as [b|u|u t x h r|u|o]; cbn [step] in Hstep.
  - injection Hstep as <- <-. split; [|by left].
    unfold lookup_phase. destruct (negb _); [done|].
    destruct (check_cache _ _) as [c|]; [|done].
    by destruct (truthy (JObj c)).
  - injection Hstep as <- <-. split; [|by left].
    destruct (generate_phase_cases w u)
      as [(o & -> & _)|(t & x & h & r & q & -> & _ & Hx & _ & V & Hu & _)];
      [done|].
    simpl. eauto.
  - unfold store_phase, add_commit in Hstep.
    destruct (first_by_url db u) as [row|].
    + injection Hstep as <- <-. split; [done|by left].
    + injection Hstep as <- <-. split; [done|]. right.
      exists (stored_row w db u t x h r). split; [done|]. split; [done|].
      destruct Hc as (q & V & Hu & Hx).
      apply stored_row_complete with (q := q); try done.
      apply QuizOutput_validate_dict_Some in V as (_ & Ht & _).
      apply required_Some in Ht as (v & Hget & Hv).
      apply validate_str_Some in Hv. by subst v.
  - injection Hstep as <- <-. split; [|by left].
    unfold recover_phase. destruct (check_cache _ _) as [c|]; [|done].
    by destruct (truthy (JObj c)).
  - injection Hstep as <- <-. split; [done|by left].
Qed.

(** What concurrent calls have added to the table [db0]. *)
Lemma reachable_rows (db0 : Session) (bodies : list string) (sys : System) :
  reachable db0 bodies sys ->
  Forall stage_complete (calls sys) /\
  exists more,
    rows (store sys) = (rows db0 ++ more)%list /\
    next_id (store sys) = next_id db0 + Z.of_nat (length more) /\
    Forall row_complete more /\
    Forall (fun r => next_id db0 <= database.id r < next_id (store sys)) more /\
    NoDup (database.id <$> more).
Proof.
  intros Hr. unfold reachable in Hr.
  refine (rtc_ind_r
            (fun sys =>
               Forall stage_complete (calls sys) /\
               exists more,
                 rows (store sys) = (rows db0 ++ more)%list /\
                 next_id (store sys) = next_id db0 + Z.of_nat (length more) /\
                 Forall row_complete more /\
                 Forall (fun r => next_id db0 <= database.id r
                                  < next_id (store sys)) more /\
                 NoDup (database.id <$> more))
            _ _ _ sys Hr).
  - simpl. split.
    + clear. induction bodies; constructor; done.
    + exists []. rewrite app_nil_r. simpl.
      repeat split; try constructor. lia.
  - clear sys Hr. intros sys sys' _ Hstep (Hall & more & Hrows & Hnext & Hcomp & Hids & Hnd).
    destruct Hstep as [sys i w s s' db' Hi Hs].
    assert (stage_complete s) as Hc.
    { rewrite Forall_forall in Hall. apply Hall.
      by eapply list_elem_of_lookup_2. }
    destruct (step_effect _ _ _ _ _ Hc Hs) as [Hc' Hdb].
    simpl. split.
    { apply Forall_insert; done. }
    destruct Hdb as [->|(row & -> & Hid & Hrow)]; [by exists more|].
    exists (more ++ [row])%list. unfold table_with. simpl.
    rewrite Hrows, length_app, app_assoc. simpl.
    split; [done|]. split; [lia|]. split.
    { apply Forall_app. split; [done|]. by apply Forall_singleton. }
    split.
    { apply Forall_app. split.
      - eapply Forall_impl; [exact Hids|]. intros r ?. simpl in *. lia.
      - apply Forall_singleton. lia. }
    rewrite fmap_app. apply NoDup_app. split; [done|]. split.
    + intros j Hj Hj'. apply list_elem_of_singleton in Hj'. subst j.
      apply list_elem_of_fmap in Hj as (r & Hr & Hin).
      rewrite Forall_forall in Hids. specialize (Hids r Hin). lia.
    + apply NoDup_singleton.
Qed.



(** X29.  Ids are never given twice.  From a table whose ids are in
    order (each below the next id, none occurring twice), every state
    concurrent calls reach has its ids in order, and every row added
    has an id at or above the initial next id. *)
Theorem ids_never_reused (db : Session) (bodies : list string)
  (sys : System) :
  ids_fresh db ->
  reachable db bodies sys ->
  ids_fresh (store sys) /\
  forall row, row ∈ rows (store sys) -> row ∉ rows db ->
              next_id db <= database.id row.
Proof.
  intros [Hlt Hnd] Hr.
  destruct (reachable_rows _ _ _ Hr)
    as (_ & more & Hrows & Hnext & _ & Hids & Hnd').
  split; [split|].
  - rewrite Hrows. apply Forall_app. split.
    + eapply Forall_impl; [exact Hlt|]. intros r ?. simpl in *. lia.
    + eapply Forall_impl; [exact Hids|]. intros r ?. simpl in *. lia.
  - rewrite Hrows, fmap_app. apply NoDup_app. split; [done|]. split; [|done].
    intros j Hj Hj'.
    apply list_elem_of_fmap in Hj as (r & -> & Hin).
    apply list_elem_of_fmap in Hj' as (r' & Heq & Hin').
    rewrite Forall_forall in Hlt, Hids.
    specialize (Hlt r Hin). specialize (Hids r' Hin'). lia.
  - intros row Hin Hnot. rewrite Hrows in Hin.
    apply elem_of_app in Hin as [Hin|Hin]; [done|].
    rewrite Forall_forall in Hids. specialize (Hids row Hin). lia.
Qed.

Lemma ids_never_reused_witness :
  ids_fresh (store samples.race_final) /\
  forall row, row ∈ rows (store samples.race_final) ->
              row ∉ rows samples.empty_table ->
              next_id samples.empty_table <= database.id row.
Proof.
  apply (ids_never_reused samples.empty_table
           [" https://en.wikipedia.org/wiki/France";
            "https://en.wikipedia.org/wiki/France "]
           samples.race_final).
  - split; [apply Forall_nil_2|apply NoDup_nil_2].
  - exact race_reachable.
Defined.
